(** * Meditation Script Maker: the script service over its relational store

    A shallow embedding of the six server actions (create, update, list,
    get-with-sections, upsert-section, delete-section) and of the two tables
    they work on.  Tables are lists of rows in store order; an action is a
    function from the store to a result and the store it leaves behind. *)

From Stdlib Require Import ZArith List String Bool Lia Permutation Sorted.
Import ListNotations.

Open Scope string_scope.
Open Scope list_scope.
Open Scope Z_scope.

(** ** Host values *)

(** A [Date] is its epoch time; a number column or input holds an integer
    (every number schema in the actions is [.int()]). *)
Definition Date := Z.

(** ** Tables (db/tables.ts) *)

Module MeditationScripts.
Record row : Type := mk {
  id : string;
  userId : string;
  title : string;
  description : option string;
  meditationType : option string;
  focusArea : option string;
  difficulty : option string;
  language : option string;
  targetDurationMinutes : option Z;
  fullScript : option string;
  notes : option string;
  isFavorite : bool;
  createdAt : Date;
  updatedAt : Date
}.

(** One entry of the object handed to [db.update(...).set(...)]. *)
Inductive assignment : Type :=
| set_title (v : string)
| set_description (v : string)
| set_meditationType (v : string)
| set_focusArea (v : string)
| set_difficulty (v : string)
| set_language (v : string)
| set_targetDurationMinutes (v : Z)
| set_fullScript (v : string)
| set_notes (v : string)
| set_isFavorite (v : bool)
| set_updatedAt (v : Date).

Definition assign (a : assignment) (r : row) : row :=
  match a with
  | set_title v =>
      mk r.(id) r.(userId) v r.(description) r.(meditationType) r.(focusArea)
         r.(difficulty) r.(language) r.(targetDurationMinutes) r.(fullScript)
         r.(notes) r.(isFavorite) r.(createdAt) r.(updatedAt)
  | set_description v =>
      mk r.(id) r.(userId) r.(title) (Some v) r.(meditationType) r.(focusArea)
         r.(difficulty) r.(language) r.(targetDurationMinutes) r.(fullScript)
         r.(notes) r.(isFavorite) r.(createdAt) r.(updatedAt)
  | set_meditationType v =>
      mk r.(id) r.(userId) r.(title) r.(description) (Some v) r.(focusArea)
         r.(difficulty) r.(language) r.(targetDurationMinutes) r.(fullScript)
         r.(notes) r.(isFavorite) r.(createdAt) r.(updatedAt)
  | set_focusArea v =>
      mk r.(id) r.(userId) r.(title) r.(description) r.(meditationType) (Some v)
         r.(difficulty) r.(language) r.(targetDurationMinutes) r.(fullScript)
         r.(notes) r.(isFavorite) r.(createdAt) r.(updatedAt)
  | set_difficulty v =>
      mk r.(id) r.(userId) r.(title) r.(description) r.(meditationType) r.(focusArea)
         (Some v) r.(language) r.(targetDurationMinutes) r.(fullScript)
         r.(notes) r.(isFavorite) r.(createdAt) r.(updatedAt)
  | set_language v =>
      mk r.(id) r.(userId) r.(title) r.(description) r.(meditationType) r.(focusArea)
         r.(difficulty) (Some v) r.(targetDurationMinutes) r.(fullScript)
         r.(notes) r.(isFavorite) r.(createdAt) r.(updatedAt)
  | set_targetDurationMinutes v =>
      mk r.(id) r.(userId) r.(title) r.(description) r.(meditationType) r.(focusArea)
         r.(difficulty) r.(language) (Some v) r.(fullScript)
         r.(notes) r.(isFavorite) r.(createdAt) r.(updatedAt)
  | set_fullScript v =>
      mk r.(id) r.(userId) r.(title) r.(description) r.(meditationType) r.(focusArea)
         r.(difficulty) r.(language) r.(targetDurationMinutes) (Some v)
         r.(notes) r.(isFavorite) r.(createdAt) r.(updatedAt)
  | set_notes v =>
      mk r.(id) r.(userId) r.(title) r.(description) r.(meditationType) r.(focusArea)
         r.(difficulty) r.(language) r.(targetDurationMinutes) r.(fullScript)
         (Some v) r.(isFavorite) r.(createdAt) r.(updatedAt)
  | set_isFavorite v =>
      mk r.(id) r.(userId) r.(title) r.(description) r.(meditationType) r.(focusArea)
         r.(difficulty) r.(language) r.(targetDurationMinutes) r.(fullScript)
         r.(notes) v r.(createdAt) r.(updatedAt)
  | set_updatedAt v =>
      mk r.(id) r.(userId) r.(title) r.(description) r.(meditationType) r.(focusArea)
         r.(difficulty) r.(language) r.(targetDurationMinutes) r.(fullScript)
         r.(notes) r.(isFavorite) r.(createdAt) v
  end.
End MeditationScripts.

Module MeditationScriptSections.
Record row : Type := mk {
  id : string;
  scriptId : string;
  orderIndex : Z;
  sectionType : option string;
  title : option string;
  body : string;
  suggestedDurationMinutes : option Z;
  createdAt : Date
}.

Inductive assignment : Type :=
| set_orderIndex (v : Z)
| set_body (v : string)
| set_sectionType (v : string)
| set_title (v : string)
| set_suggestedDurationMinutes (v : Z).

Definition assign (a : assignment) (r : row) : row :=
  match a with
  | set_orderIndex v =>
      mk r.(id) r.(scriptId) v r.(sectionType) r.(title) r.(body)
         r.(suggestedDurationMinutes) r.(createdAt)
  | set_body v =>
      mk r.(id) r.(scriptId) r.(orderIndex) r.(sectionType) r.(title) v
         r.(suggestedDurationMinutes) r.(createdAt)
  | set_sectionType v =>
      mk r.(id) r.(scriptId) r.(orderIndex) (Some v) r.(title) r.(body)
         r.(suggestedDurationMinutes) r.(createdAt)
  | set_title v =>
      mk r.(id) r.(scriptId) r.(orderIndex) r.(sectionType) (Some v) r.(body)
         r.(suggestedDurationMinutes) r.(createdAt)
  | set_suggestedDurationMinutes v =>
      mk r.(id) r.(scriptId) r.(orderIndex) r.(sectionType) r.(title) r.(body)
         (Some v) r.(createdAt)
  end.
End MeditationScriptSections.

Module S := MeditationScripts.
Module T := MeditationScriptSections.

(** The store: both tables, rows in store order. *)
Record Db : Type := mkDb {
  scripts : list S.row;
  sections : list T.row
}.

(** ** Errors, results and the action monad *)

Inductive ErrorCode : Type :=
  UNAUTHORIZED | NOT_FOUND | FORBIDDEN | INTERNAL_SERVER_ERROR.

(** [ActionError] is thrown by the handlers, and with the code
    INTERNAL_SERVER_ERROR it is what the caller gets when the store client
    throws while reading; [ActionInputError] is what [defineAction] raises
    when the input schema rejects the payload; [ConstraintError] is the store
    refusing a duplicate primary key. *)
Inductive Error : Type :=
| ActionError (code : ErrorCode) (message : string)
| ActionInputError
| ConstraintError.

Inductive Result (A : Type) : Type :=
| Ok (a : A)
| Err (e : Error).
Arguments Ok {A} a.
Arguments Err {A} e.

(** An awaited computation against the store.  A failure leaves the store as
    it was at the point of the throw: no statement sequence is transactional. *)
Definition Action (A : Type) : Type := Db -> Result A * Db.

Definition ret {A} (a : A) : Action A := fun db => (Ok a, db).
Definition throw {A} (e : Error) : Action A := fun db => (Err e, db).
Definition bind {A B} (c : Action A) (k : A -> Action B) : Action B :=
  fun db =>
    match c db with
    | (Ok a, db') => k a db'
    | (Err e, db') => (Err e, db')
    end.

Notation "x <- c ;; k" := (bind c (fun x => k))
  (at level 61, c at next level, right associativity).
Notation "c ;;; k" := (bind c (fun _ => k))
  (at level 61, right associativity).

(** ** Query primitives *)

(** The store client hands a stored integer back as a JavaScript number and
    throws on one that a number does not hold exactly: a select fails when a
    row it returns carries an integer outside the safe range.  Writes decode
    nothing. *)
Definition MAX_SAFE_INTEGER : Z := 9007199254740991.

Definition safe_integer (n : Z) : bool :=
  (- MAX_SAFE_INTEGER <=? n) && (n <=? MAX_SAFE_INTEGER).

Definition safe_optional (o : option Z) : bool :=
  match o with
  | Some n => safe_integer n
  | None => true
  end.

Definition decodable_script (r : S.row) : bool :=
  safe_optional r.(S.targetDurationMinutes).

Definition decodable_section (r : T.row) : bool :=
  safe_integer r.(T.orderIndex) && safe_optional r.(T.suggestedDurationMinutes).

Definition unsafe_integer : Error :=
  ActionError INTERNAL_SERVER_ERROR
    "Received integer which cannot be safely represented as a JavaScript number".

Definition decode {A} (decodable : A -> bool) (rows : list A) : Action (list A) :=
  if forallb decodable rows then ret rows else throw unsafe_integer.

Definition select_scripts (cond : S.row -> bool) : Action (list S.row) :=
  fun db => decode decodable_script (filter cond db.(scripts)) db.

Definition select_sections (cond : T.row -> bool) : Action (list T.row) :=
  fun db => decode decodable_section (filter cond db.(sections)) db.

Definition insert_script (r : S.row) : Action unit :=
  fun db =>
    if existsb (fun s => s.(S.id) =? r.(S.id))%string db.(scripts)
    then (Err ConstraintError, db)
    else (Ok tt, mkDb (db.(scripts) ++ [r]) db.(sections)).

Definition insert_section (r : T.row) : Action unit :=
  fun db =>
    if existsb (fun s => s.(T.id) =? r.(T.id))%string db.(sections)
    then (Err ConstraintError, db)
    else (Ok tt, mkDb db.(scripts) (db.(sections) ++ [r])).

Definition set_script (updates : list S.assignment) (r : S.row) : S.row :=
  fold_left (fun acc a => S.assign a acc) updates r.

Definition set_section (updates : list T.assignment) (r : T.row) : T.row :=
  fold_left (fun acc a => T.assign a acc) updates r.

Definition update_scripts (updates : list S.assignment) (cond : S.row -> bool)
  : Action unit :=
  fun db =>
    (Ok tt,
     mkDb (map (fun r => if cond r then set_script updates r else r) db.(scripts))
          db.(sections)).

Definition update_sections (updates : list T.assignment) (cond : T.row -> bool)
  : Action unit :=
  fun db =>
    (Ok tt,
     mkDb db.(scripts)
          (map (fun r => if cond r then set_section updates r else r) db.(sections))).

Definition delete_sections (cond : T.row -> bool) : Action unit :=
  fun db =>
    (Ok tt, mkDb db.(scripts) (filter (fun r => negb (cond r)) db.(sections))).

(** ** JavaScript helpers *)

(** Truthiness of a string: only the empty string is falsy. *)
Definition truthy (s : string) : bool := negb (s =? "")%string.

(** [if (x)] on an optional string: [undefined] and the empty string are
    falsy; the branch taken on a truthy [x] reads its value. *)
Definition if_truthy (o : option string) : option string :=
  match o with
  | Some s => if truthy s then Some s else None
  | None => None
  end.

Definition defined {A} (o : option A) : bool :=
  match o with
  | Some _ => true
  | None => false
  end.

(** [Array.prototype.slice(start, end)]: negative indexes count from the end,
    both are clamped to the array. *)
Definition slice {A} (l : list A) (start stop : Z) : list A :=
  let len := Z.of_nat (List.length l) in
  let k := if start <? 0 then Z.max (len + start) 0 else Z.min start len in
  let fin := if stop <? 0 then Z.max (len + stop) 0 else Z.min stop len in
  firstn (Z.to_nat (fin - k)) (skipn (Z.to_nat k) l).

(** [Array.prototype.sort(compare)]: a stable sort.  [x] goes in front of
    the first element it does not compare greater than. *)
Fixpoint sort_insert {A} (compare : A -> A -> Z) (x : A) (l : list A) : list A :=
  match l with
  | [] => [x]
  | y :: ys =>
      if compare x y <=? 0 then x :: y :: ys
      else y :: sort_insert compare x ys
  end.

Fixpoint sort {A} (compare : A -> A -> Z) (l : list A) : list A :=
  match l with
  | [] => []
  | x :: xs => sort_insert compare x (sort compare xs)
  end.


(** ** The request *)

Record User : Type := mkUser { user_id : string }.

(** What a call sees of its host: the signed-in user of [context.locals], the
    value [new Date()] gives and the value [crypto.randomUUID()] gives. *)
Record Host : Type := mkHost {
  locals_user : option User;
  new_Date : Date;
  randomUUID : string
}.

Record Success (A : Type) : Type := mkSuccess {
  success : bool;
  data : A
}.
Arguments mkSuccess {A} success data.
Arguments success {A} s.
Arguments data {A} s.

(** [defineAction]: the input schema runs first, the handler only on a
    payload the schema accepted. *)
Definition defineAction {I P O} (schema : I -> option P)
  (handler : P -> Host -> Action O) (input : I) (host : Host) : Action O :=
  match schema input with
  | Some payload => handler payload host
  | None => throw ActionInputError
  end.

Definition positive_opt (o : option Z) : bool :=
  match o with
  | Some n => 0 <? n
  | None => true
  end.

Definition min1 (s : string) : bool := (1 <=? String.length s)%nat.

Definition requireUser (host : Host) : Action User :=
  match host.(locals_user) with
  | Some user => ret user
  | None =>
      throw (ActionError UNAUTHORIZED "You must be signed in to perform this action.")
  end.

Definition getOwnedScript (scriptId userId : string) : Action S.row :=
  rows <- select_scripts
            (fun s => (s.(S.id) =? scriptId)%string && (s.(S.userId) =? userId)%string) ;;
  match rows with
  | script :: _ => ret script
  | [] => throw (ActionError NOT_FOUND "Meditation script not found.")
  end.

(** ** createMeditationScript *)

Module CreateScript.
Record input : Type := mk {
  title : string;
  description : option string;
  meditationType : option string;
  focusArea : option string;
  difficulty : option string;
  language : option string;
  targetDurationMinutes : option Z;
  fullScript : option string;
  notes : option string;
  isFavorite : option bool
}.

Definition schema (i : input) : option input :=
  if min1 i.(title) && positive_opt i.(targetDurationMinutes) then Some i else None.

Definition handler (i : input) (host : Host) : Action (Success string) :=
  user <- requireUser host ;;
  let now := host.(new_Date) in
  let scriptId := host.(randomUUID) in
  insert_script
    (S.mk scriptId user.(user_id) i.(title) i.(description) i.(meditationType)
       i.(focusArea) i.(difficulty) i.(language) i.(targetDurationMinutes)
       i.(fullScript) i.(notes)
       (match i.(isFavorite) with Some b => b | None => false end)
       now now) ;;;
  ret (mkSuccess true scriptId).
End CreateScript.

Definition createMeditationScript := defineAction CreateScript.schema CreateScript.handler.

(** ** updateMeditationScript *)

Module UpdateScript.
Record input : Type := mk {
  id : string;
  title : option string;
  description : option string;
  meditationType : option string;
  focusArea : option string;
  difficulty : option string;
  language : option string;
  targetDurationMinutes : option Z;
  fullScript : option string;
  notes : option string;
  isFavorite : option bool
}.

(** The [.refine] predicate: some entry other than [id] is not [undefined]. *)
Definition refine (i : input) : bool :=
  defined i.(title) || defined i.(description) || defined i.(meditationType)
  || defined i.(focusArea) || defined i.(difficulty) || defined i.(language)
  || defined i.(targetDurationMinutes) || defined i.(fullScript)
  || defined i.(notes) || defined i.(isFavorite).

Definition schema (i : input) : option input :=
  if match i.(title) with Some t => min1 t | None => true end
     && positive_opt i.(targetDurationMinutes)
     && refine i
  then Some i else None.

Definition when {A B} (o : option A) (f : A -> B) : list B :=
  match o with
  | Some v => [f v]
  | None => []
  end.

Definition updates (i : input) (now : Date) : list S.assignment :=
  when i.(title) S.set_title
  ++ when i.(description) S.set_description
  ++ when i.(meditationType) S.set_meditationType
  ++ when i.(focusArea) S.set_focusArea
  ++ when i.(difficulty) S.set_difficulty
  ++ when i.(language) S.set_language
  ++ when i.(targetDurationMinutes) S.set_targetDurationMinutes
  ++ when i.(fullScript) S.set_fullScript
  ++ when i.(notes) S.set_notes
  ++ when i.(isFavorite) S.set_isFavorite
  ++ [S.set_updatedAt now].

Definition handler (i : input) (host : Host) : Action (Success string) :=
  user <- requireUser host ;;
  getOwnedScript i.(id) user.(user_id) ;;;
  update_scripts (updates i host.(new_Date))
    (fun s => (s.(S.id) =? i.(id))%string && (s.(S.userId) =? user.(user_id))%string) ;;;
  ret (mkSuccess true i.(id)).
End UpdateScript.

Definition updateMeditationScript := defineAction UpdateScript.schema UpdateScript.handler.

(** ** listMeditationScripts *)

Module ListScripts.
Record input : Type := mk {
  page : option Z;
  pageSize : option Z;
  focusArea : option string;
  isFavorite : option bool
}.

(** The payload after the schema filled in the defaults. *)
Record parsed : Type := mkParsed {
  p_page : Z;
  p_pageSize : Z;
  p_focusArea : option string;
  p_isFavorite : option bool
}.

Record page_of_scripts : Type := mkPage {
  items : list S.row;
  total : Z
}.

Definition default {A} (d : A) (o : option A) : A :=
  match o with
  | Some v => v
  | None => d
  end.

Definition schema (i : input) : option parsed :=
  let pg := default 1 i.(page) in
  let sz := default 20 i.(pageSize) in
  if (0 <? pg) && (1 <=? sz) && (sz <=? 100)
  then Some (mkParsed pg sz i.(focusArea) i.(isFavorite))
  else None.

(** [eq(column, value)] on a nullable text column: a NULL equals nothing. *)
Definition eq_text (column : option string) (value : string) : bool :=
  match column with
  | Some c => (c =? value)%string
  | None => false
  end.

Definition condition (userId : string) (i : parsed) (s : S.row) : bool :=
  let c0 := (s.(S.userId) =? userId)%string in
  let c1 :=
    match if_truthy i.(p_focusArea) with
    | Some focusArea => c0 && eq_text s.(S.focusArea) focusArea
    | None => c0
    end in
  match i.(p_isFavorite) with
  | Some b => c1 && Bool.eqb s.(S.isFavorite) b
  | None => c1
  end.

Definition handler (i : parsed) (host : Host) : Action (Success page_of_scripts) :=
  user <- requireUser host ;;
  scripts <- select_scripts (condition user.(user_id) i) ;;
  let total := Z.of_nat (List.length scripts) in
  let start := (i.(p_page) - 1) * i.(p_pageSize) in
  let items := slice scripts start (start + i.(p_pageSize)) in
  ret (mkSuccess true (mkPage items total)).
End ListScripts.

Definition listMeditationScripts := defineAction ListScripts.schema ListScripts.handler.

(** ** getMeditationScriptWithSections *)

Module GetScript.
Record input : Type := mk { id : string }.

Record script_with_sections : Type := mkOut {
  script : S.row;
  sections : list T.row
}.

Definition schema (i : input) : option input := Some i.

Definition handler (i : input) (host : Host) : Action (Success script_with_sections) :=
  user <- requireUser host ;;
  script <- getOwnedScript i.(id) user.(user_id) ;;
  sections <- select_sections (fun t => (t.(T.scriptId) =? script.(S.id))%string) ;;
  let sorted := sort (fun a b => a.(T.orderIndex) - b.(T.orderIndex)) sections in
  ret (mkSuccess true (mkOut script sorted)).
End GetScript.

Definition getMeditationScriptWithSections :=
  defineAction GetScript.schema GetScript.handler.

(** ** upsertMeditationScriptSection *)

Module UpsertSection.
Record input : Type := mk {
  id : option string;
  scriptId : string;
  orderIndex : Z;
  sectionType : option string;
  title : option string;
  body : string;
  suggestedDurationMinutes : option Z
}.

Definition schema (i : input) : option input :=
  if (0 <? i.(orderIndex)) && min1 i.(body) && positive_opt i.(suggestedDurationMinutes)
  then Some i else None.

Definition updates (i : input) : list T.assignment :=
  [T.set_orderIndex i.(orderIndex); T.set_body i.(body)]
  ++ UpdateScript.when i.(sectionType) T.set_sectionType
  ++ UpdateScript.when i.(title) T.set_title
  ++ UpdateScript.when i.(suggestedDurationMinutes) T.set_suggestedDurationMinutes.

Definition handler (i : input) (host : Host) : Action (Success string) :=
  user <- requireUser host ;;
  script <- getOwnedScript i.(scriptId) user.(user_id) ;;
  match if_truthy i.(id) with
  | Some input_id =>
      found <- select_sections (fun t => (t.(T.id) =? input_id)%string) ;;
      match found with
      | [] => throw (ActionError NOT_FOUND "Section not found.")
      | existingSection :: _ =>
          if negb (existingSection.(T.scriptId) =? script.(S.id))%string then
            throw (ActionError FORBIDDEN
                     "You cannot modify sections for another user's script.")
          else
            update_sections (updates i) (fun t => (t.(T.id) =? input_id)%string) ;;;
            ret (mkSuccess true input_id)
      end
  | None =>
      let sectionId := host.(randomUUID) in
      insert_section
        (T.mk sectionId script.(S.id) i.(orderIndex) i.(sectionType) i.(title)
           i.(body) i.(suggestedDurationMinutes) host.(new_Date)) ;;;
      ret (mkSuccess true sectionId)
  end.
End UpsertSection.

Definition upsertMeditationScriptSection :=
  defineAction UpsertSection.schema UpsertSection.handler.

(** ** deleteMeditationScriptSection *)

Module DeleteSection.
Record input : Type := mk { id : string }.

Definition schema (i : input) : option input := Some i.

Definition handler (i : input) (host : Host) : Action (Success string) :=
  user <- requireUser host ;;
  found <- select_sections (fun t => (t.(T.id) =? i.(id))%string) ;;
  match found with
  | [] => throw (ActionError NOT_FOUND "Section not found.")
  | section :: _ =>
      getOwnedScript section.(T.scriptId) user.(user_id) ;;;
      delete_sections (fun t => (t.(T.id) =? i.(id))%string) ;;;
      ret (mkSuccess true i.(id))
  end.
End DeleteSection.

Definition deleteMeditationScriptSection :=
  defineAction DeleteSection.schema DeleteSection.handler.


(** * Properties *)

(** ** Keys and ownership *)

Definition primary_key {A} (key : A -> string) (table : list A) : Prop :=
  NoDup (map key table).

Definition script_absent (sid : string) (db : Db) : Prop :=
  forall s, In s db.(scripts) -> s.(S.id) <> sid.

Definition script_foreign (sid uid : string) (db : Db) : Prop :=
  exists s, In s db.(scripts) /\ s.(S.id) = sid /\ s.(S.userId) <> uid.

(** No row of the scripts table carries both this id and this owner. *)
Definition unowned (sid uid : string) (db : Db) : Prop :=
  forall s, In s db.(scripts) -> s.(S.id) = sid -> s.(S.userId) <> uid.

Definition script_not_found : Error :=
  ActionError NOT_FOUND "Meditation script not found.".

Definition section_not_found : Error :=
  ActionError NOT_FOUND "Section not found.".

Definition section_forbidden : Error :=
  ActionError FORBIDDEN "You cannot modify sections for another user's script.".

(** ** A sample store

    Two users; Alice owns two scripts, Bob one. *)

Module Sample.
Definition alice : User := mkUser "u-alice".
Definition bob : User := mkUser "u-bob".

Definition host_alice : Host := mkHost (Some alice) 1000 "uuid-1".
Definition host_alice_later : Host := mkHost (Some alice) 2000 "uuid-2".

Definition script_a : S.row :=
  S.mk "s-a" "u-alice" "Morning Calm" None None (Some "stress") None None None
    None None false 10 10.

Definition script_a2 : S.row :=
  S.mk "s-a2" "u-alice" "Evening Rest" None None (Some "sleep") None None None
    None None true 20 20.

Definition script_b : S.row :=
  S.mk "s-b" "u-bob" "Body Scan" None None (Some "stress") None None None
    None None false 30 30.

Definition section_a1 : T.row := T.mk "t-1" "s-a" 3 (Some "closing") None "Rest." None 11.
Definition section_a2 : T.row := T.mk "t-2" "s-a" 1 (Some "intro") None "Sit." None 12.
Definition section_a3 : T.row := T.mk "t-3" "s-a" 2 None None "Breathe in." (Some 2) 13.
Definition section_a4 : T.row := T.mk "t-4" "s-a" 1 None None "Settle." None 14.
Definition section_b1 : T.row := T.mk "t-b" "s-b" 1 None None "Scan." None 31.
Definition section_a21 : T.row := T.mk "t-5" "s-a2" 1 None None "Dim the light." None 21.

Definition db : Db :=
  mkDb [script_a; script_b; script_a2]
       [section_a1; section_a2; section_b1; section_a3; section_a4; section_a21].


Definition host_bob : Host := mkHost (Some bob) 1500 "uuid-b".

(** 2^53, the least positive integer outside the safe range. *)
Definition two_53 : Z := 9007199254740992.

(** The store after Bob has added a section with [orderIndex] 2^53 to his
    script, after Alice has added one to her script, and after Alice has
    created a script with [targetDurationMinutes] 2^53. *)
Definition section_b_big : T.row :=
  T.mk "uuid-b" "s-b" two_53 None None "Scan." None 1500.

Definition db_b_big : Db :=
  mkDb [script_a; script_b; script_a2]
       [section_a1; section_a2; section_b1; section_a3; section_a4; section_a21;
        section_b_big].

Definition section_a_big : T.row :=
  T.mk "uuid-1" "s-a" two_53 None None "Breathe." None 1000.

Definition db_a_big : Db :=
  mkDb [script_a; script_b; script_a2]
       [section_a1; section_a2; section_b1; section_a3; section_a4; section_a21;
        section_a_big].

Definition script_big : S.row :=
  S.mk "uuid-1" "u-alice" "Long Sit" None None None None None (Some two_53)
    None None false 1000 1000.

Definition db_script_big : Db :=
  mkDb [script_a; script_b; script_a2; script_big]
       [section_a1; section_a2; section_b1; section_a3; section_a4; section_a21].
End Sample.

(** ** Filters of a list call, as the interface describes them *)

(** A row satisfies the filters when it belongs to the caller and equals
    every filter value that is given. *)
Definition satisfies (userId : string) (focusArea : option string)
  (isFavorite : option bool) (s : S.row) : Prop :=
  s.(S.userId) = userId
  /\ (forall f, focusArea = Some f -> s.(S.focusArea) = Some f)
  /\ (forall b, isFavorite = Some b -> s.(S.isFavorite) = b).

(** The focus-area filter that takes effect: an empty text counts as none. *)
Definition effective_focusArea (focusArea : option string) : option string :=
  match focusArea with
  | Some EmptyString => None
  | other => other
  end.

(** ** Partial updates, as the interface describes them *)

(** The value a nullable column holds after an update that may give one. *)
Definition given_or {A} (given : option A) (old : option A) : option A :=
  match given with
  | Some v => Some v
  | None => old
  end.

(** [new] is [old] after updateMeditationScript with payload [i] at time
    [now]: the given fields take their new values, the others stay, and
    [updatedAt] is the time of the call. *)
Definition updated_script (i : UpdateScript.input) (now : Date) (old new : S.row) : Prop :=
  new.(S.id) = old.(S.id)
  /\ new.(S.userId) = old.(S.userId)
  /\ new.(S.createdAt) = old.(S.createdAt)
  /\ new.(S.title) = ListScripts.default old.(S.title) i.(UpdateScript.title)
  /\ new.(S.description) = given_or i.(UpdateScript.description) old.(S.description)
  /\ new.(S.meditationType) = given_or i.(UpdateScript.meditationType) old.(S.meditationType)
  /\ new.(S.focusArea) = given_or i.(UpdateScript.focusArea) old.(S.focusArea)
  /\ new.(S.difficulty) = given_or i.(UpdateScript.difficulty) old.(S.difficulty)
  /\ new.(S.language) = given_or i.(UpdateScript.language) old.(S.language)
  /\ new.(S.targetDurationMinutes)
     = given_or i.(UpdateScript.targetDurationMinutes) old.(S.targetDurationMinutes)
  /\ new.(S.fullScript) = given_or i.(UpdateScript.fullScript) old.(S.fullScript)
  /\ new.(S.notes) = given_or i.(UpdateScript.notes) old.(S.notes)
  /\ new.(S.isFavorite) = ListScripts.default old.(S.isFavorite) i.(UpdateScript.isFavorite)
  /\ new.(S.updatedAt) = now.

Definition owned_by (sid uid : string) (s : S.row) : Prop :=
  s.(S.id) = sid /\ s.(S.userId) = uid.

(** [new] is [old] after the update branch of upsertMeditationScriptSection
    with payload [i]: [orderIndex] and [body] are the payload's, the three
    optional fields change only when given, the rest stays. *)
Definition updated_section (i : UpsertSection.input) (old new : T.row) : Prop :=
  new.(T.id) = old.(T.id)
  /\ new.(T.scriptId) = old.(T.scriptId)
  /\ new.(T.createdAt) = old.(T.createdAt)
  /\ new.(T.orderIndex) = i.(UpsertSection.orderIndex)
  /\ new.(T.body) = i.(UpsertSection.body)
  /\ new.(T.sectionType) = given_or i.(UpsertSection.sectionType) old.(T.sectionType)
  /\ new.(T.title) = given_or i.(UpsertSection.title) old.(T.title)
  /\ new.(T.suggestedDurationMinutes)
     = given_or i.(UpsertSection.suggestedDurationMinutes) old.(T.suggestedDurationMinutes).

(** Every section refers to a row of the scripts table. *)
Definition sections_reference_scripts (db : Db) : Prop :=
  forall t, In t db.(sections) -> In t.(T.scriptId) (map S.id db.(scripts)).

(** ** What a caller owns *)

(** The caller owns a script of this id. *)
Definition owns (uid : string) (db : Db) (sid : string) : bool :=
  existsb (fun s => (s.(S.id) =? sid)%string && (s.(S.userId) =? uid)%string)
    db.(scripts).



(** ** The store invariant

    Ids are primary keys in both tables and every section refers to an
    existing script. *)
Definition well_formed (db : Db) : Prop :=
  primary_key S.id db.(scripts)
  /\ primary_key T.id db.(sections)
  /\ sections_reference_scripts db.

(** ** Ordering rows by an integer key *)

(** The comparator [(a, b) => key(a) - key(b)] and the order it sorts into. *)
Definition compare_by {A} (key : A -> Z) (a b : A) : Z := key a - key b.
Definition le_by {A} (key : A -> Z) (a b : A) : Prop := key a <= key b.

(** ** Further notions used below *)

Definition unauthorized : Error :=
  ActionError UNAUTHORIZED "You must be signed in to perform this action.".

(** The error of a call without a signed-in user: the schema speaks first. *)
Definition signed_out_error {I P} (schema : I -> option P) (i : I) : Error :=
  match schema i with
  | Some _ => unauthorized
  | None => ActionInputError
  end.

(** Rows that belong to other users: their scripts, and the sections of
    scripts the user does not own. *)
Definition foreign_scripts (uid : string) (db : Db) : list S.row :=
  filter (fun s => negb (s.(S.userId) =? uid)%string) db.(scripts).

Definition foreign_sections (uid : string) (db : Db) : list T.row :=
  filter (fun t => negb (owns uid db t.(T.scriptId))) db.(sections).

(** The items of a list call, none when it fails. *)
Definition items_of (r : Result (Success ListScripts.page_of_scripts) * Db)
  : list S.row :=
  match fst r with
  | Ok out => out.(data).(ListScripts.items)
  | Err _ => []
  end.

(** The items of pages 1 to [n] of a list call, one after the other. *)
Fixpoint pages_upto (n : nat) (pageSize : Z) (focusArea : option string)
  (isFavorite : option bool) (host : Host) (db : Db) : list S.row :=
  match n with
  | O => []
  | Datatypes.S m =>
      pages_upto m pageSize focusArea isFavorite host db
      ++ items_of (listMeditationScripts
                     (ListScripts.mk (Some (Z.of_nat n)) (Some pageSize)
                        focusArea isFavorite) host db)
  end.

(** The condition of the update statement of updateMeditationScript. *)
Definition update_target (i : UpdateScript.input) (uid : string) (r : S.row) : bool :=
  (r.(S.id) =? i.(UpdateScript.id))%string && (r.(S.userId) =? uid)%string.

(** The total of a list call, 0 when it fails. *)
Definition total_of (r : Result (Success ListScripts.page_of_scripts) * Db) : Z :=
  match fst r with
  | Ok out => out.(data).(ListScripts.total)
  | Err _ => 0
  end.


(** ** Rows a select can hand back *)

(** The script rows with this id and this owner hold safe integers. *)
Definition readable_script (sid uid : string) (db : Db) : Prop :=
  forall s, In s db.(scripts) -> s.(S.id) = sid -> s.(S.userId) = uid ->
            decodable_script s = true.

(** The sections of the script with this id hold safe integers. *)
Definition readable_sections_of (sid : string) (db : Db) : Prop :=
  forall t, In t db.(sections) -> t.(T.scriptId) = sid -> decodable_section t = true.

(** * Lemmas *)



Ltac unfold_action :=
  unfold defineAction, requireUser, getOwnedScript in *;
  unfold select_scripts, select_sections, update_scripts, update_sections,
    delete_sections in *;
  unfold bind, ret, throw in *;
  cbv beta in *.

(** ** Lists, keys and assignments *)

Lemma primary_key_unique {A} (key : A -> string) (table : list A) (x y : A) :
  primary_key key table -> In x table -> In y table -> key x = key y -> x = y.
Proof.
  unfold primary_key. induction table as [|a l IH]; simpl; intros Hk Hx Hy E.
  - contradiction.
  - inversion Hk as [|? ? Hnin Hnd]; subst.
    destruct Hx as [->|Hx], Hy as [->|Hy]; auto.
    + exfalso. apply Hnin. rewrite E. now apply in_map.
    + exfalso. apply Hnin. rewrite <- E. now apply in_map.
Qed.

Lemma absent_unowned sid uid db : script_absent sid db -> unowned sid uid db.
Proof. intros H s Hin E. now destruct (H s Hin). Qed.

Lemma foreign_unowned sid uid db :
  primary_key S.id db.(scripts) -> script_foreign sid uid db -> unowned sid uid db.
Proof.
  intros Hk (s0 & Hin0 & E0 & Hne) s Hin E.
  assert (s = s0) as -> by (eapply primary_key_unique; eauto; congruence).
  exact Hne.
Qed.

Lemma filter_nil_iff {A} (p : A -> bool) (l : list A) :
  filter p l = [] <-> forall x, In x l -> p x = false.
Proof.
  induction l as [|a l IH]; simpl.
  - tauto.
  - destruct (p a) eqn:E; split.
    + discriminate.
    + intros H. specialize (H a (or_introl eq_refl)). congruence.
    + intros H x [<-|Hx]; auto. now apply IH.
    + intros H. apply IH. auto.
Qed.

Lemma filter_key_unique {A} (key : A -> string) (table : list A) (x : A) (k : string) :
  primary_key key table -> In x table -> key x = k ->
  filter (fun r => (key r =? k)%string) table = [x].
Proof.
  unfold primary_key. induction table as [|a l IH]; simpl; intros Hk Hx E.
  - contradiction.
  - inversion Hk as [|? ? Hnin Hnd]; subst.
    destruct Hx as [->|Hx].
    + rewrite String.eqb_refl. f_equal.
      apply filter_nil_iff. intros y Hy. apply String.eqb_neq. intros E.
      apply Hnin. rewrite <- E. now apply in_map.
    + destruct (String.eqb_spec (key a) (key x)) as [E|_].
      * exfalso. apply Hnin. rewrite E. now apply in_map.
      * now apply IH.
Qed.

Lemma in_firstn {A} (n : nat) (l : list A) (x : A) : In x (firstn n l) -> In x l.
Proof. intros H. rewrite <- (firstn_skipn n l). apply in_or_app. now left. Qed.

Lemma in_skipn {A} (n : nat) (l : list A) (x : A) : In x (skipn n l) -> In x l.
Proof. intros H. rewrite <- (firstn_skipn n l). apply in_or_app. now right. Qed.

Lemma filter_through {A} (p q : A -> bool) (l : list A) :
  (forall x, In x l -> p x = true -> q x = true) ->
  filter p l = filter p (filter q l).
Proof.
  induction l as [|a l IH]; simpl; intros H.
  - reflexivity.
  - destruct (p a) eqn:Hp.
    + rewrite (H a (or_introl eq_refl) Hp). simpl. rewrite Hp. f_equal.
      apply IH. intros x Hx. apply H. now right.
    + destruct (q a); simpl; rewrite ?Hp; apply IH; intros x Hx; apply H; now right.
Qed.

Lemma filter_swap {A} (p q : A -> bool) (l : list A) :
  filter p (filter q l) = filter q (filter p l).
Proof.
  induction l as [|a l IH]; simpl.
  - reflexivity.
  - destruct (p a) eqn:Hp, (q a) eqn:Hq; simpl; rewrite ?Hp, ?Hq, IH; reflexivity.
Qed.

Lemma filter_map_same {A} (p : A -> bool) (f : A -> A) (l : list A) :
  (forall x, p (f x) = p x) -> filter p (map f l) = map f (filter p l).
Proof.
  intros H. induction l as [|a l IH]; simpl.
  - reflexivity.
  - rewrite H. destruct (p a); simpl; now rewrite IH.
Qed.

Lemma filter_map_fixed {A} (p : A -> bool) (f : A -> A) (l : list A) :
  (forall x, In x l -> p (f x) = p x) ->
  (forall x, In x l -> p x = true -> f x = x) ->
  filter p (map f l) = filter p l.
Proof.
  induction l as [|a l IH]; simpl; intros H1 H2.
  - reflexivity.
  - rewrite (H1 a (or_introl eq_refl)).
    destruct (p a) eqn:Hp.
    + rewrite (H2 a (or_introl eq_refl) Hp). f_equal. apply IH; auto.
    + apply IH; auto.
Qed.

Lemma existsb_map_same {A} (p : A -> bool) (f : A -> A) (l : list A) :
  (forall x, p (f x) = p x) -> existsb p (map f l) = existsb p l.
Proof.
  intros H. induction l as [|a l IH]; simpl.
  - reflexivity.
  - now rewrite H, IH.
Qed.


Lemma existsb_fresh {A} (key : A -> string) (k : string) (l : list A) :
  ~ In k (map key l) -> existsb (fun r => (key r =? k)%string) l = false.
Proof.
  induction l as [|a l IH]; simpl; intros H.
  - reflexivity.
  - destruct (String.eqb_spec (key a) k) as [E|_]; simpl.
    + exfalso. auto.
    + apply IH. tauto.
Qed.

Lemma filter_fresh {A} (key : A -> string) (k : string) (p : A -> bool) (l : list A) :
  ~ In k (map key l) -> filter (fun r => (key r =? k)%string && p r) l = [].
Proof.
  intros H. apply filter_nil_iff. intros x Hx.
  destruct (String.eqb_spec (key x) k) as [E|_]; [|reflexivity].
  exfalso. apply H. rewrite <- E. now apply in_map.
Qed.

Lemma not_in_fresh {A} (key : A -> string) (k : string) (l : list A) :
  existsb (fun r => (key r =? k)%string) l = false -> ~ In k (map key l).
Proof.
  intros H Hin. apply in_map_iff in Hin. destruct Hin as (x & E & Hx).
  assert (existsb (fun r => (key r =? k)%string) l = true) as Ht.
  { apply existsb_exists. exists x. split; [exact Hx|]. now apply String.eqb_eq. }
  congruence.
Qed.

Lemma filter_snoc_fresh {A} (key : A -> string) (l : list A) (r : A) :
  ~ In (key r) (map key l) ->
  filter (fun x => (key x =? key r)%string) (l ++ [r]) = [r]
  /\ filter (fun x => negb (key x =? key r)%string) (l ++ [r]) = l.
Proof.
  intros Hfresh. rewrite !filter_app. simpl. rewrite String.eqb_refl. simpl.
  split.
  - replace (filter (fun x => (key x =? key r)%string) l) with (@nil A); [reflexivity|].
    symmetry. apply filter_nil_iff. intros x Hx. apply String.eqb_neq. intros E.
    apply Hfresh. rewrite <- E. now apply in_map.
  - rewrite app_nil_r. induction l as [|a l IH]; simpl in *; [reflexivity|].
    destruct (String.eqb_spec (key a) (key r)) as [E|_]; simpl.
    + exfalso. auto.
    + f_equal. apply IH. tauto.
Qed.

Lemma Forall2_map_self {A} (R : A -> A -> Prop) (f : A -> A) (l : list A) :
  (forall x, In x l -> R x (f x)) -> Forall2 R l (map f l).
Proof.
  induction l as [|a l IH]; simpl; intros H; constructor.
  - apply H. now left.
  - apply IH. intros x Hx. apply H. now right.
Qed.

Lemma owner_condition (sid uid : string) (s : S.row) :
  (s.(S.id) =? sid)%string && (s.(S.userId) =? uid)%string = true
  <-> owned_by sid uid s.
Proof.
  unfold owned_by. now rewrite andb_true_iff, !String.eqb_eq.
Qed.

Lemma if_truthy_effective (o : option string) : if_truthy o = effective_focusArea o.
Proof. destruct o as [[|c s]|]; reflexivity. Qed.

Lemma if_truthy_nonempty (s : string) : s <> "" -> if_truthy (Some s) = Some s.
Proof.
  intros H. unfold if_truthy, truthy.
  destruct (String.eqb_spec s ""); [contradiction|reflexivity].
Qed.

Lemma upsert_schema_accepts (i : UpsertSection.input) :
  UpsertSection.schema i <> None -> UpsertSection.schema i = Some i.
Proof.
  unfold UpsertSection.schema. destruct (_ && _); congruence.
Qed.

Lemma update_schema_accepts (i : UpdateScript.input) :
  UpdateScript.schema i <> None -> UpdateScript.schema i = Some i.
Proof.
  unfold UpdateScript.schema. destruct (_ && _); congruence.
Qed.

Lemma slice_window {A} (l : list A) (start n : Z) :
  0 <= start -> 0 <= n ->
  slice l start (start + n) = firstn (Z.to_nat n) (skipn (Z.to_nat start) l).
Proof.
  intros Hs Hn. unfold slice.
  destruct (Z.ltb_spec start 0) as [?|_]; [lia|].
  destruct (Z.ltb_spec (start + n) 0) as [?|_]; [lia|].
  set (len := Z.of_nat (List.length l)).
  destruct (Z.le_gt_cases len start) as [Hbig|Hsmall].
  - rewrite (skipn_all2 l (n := Z.to_nat start)) by lia.
    rewrite (skipn_all2 l (n := Z.to_nat (Z.min start len))) by lia.
    now rewrite !firstn_nil.
  - replace (Z.min start len) with start by lia.
    destruct (Z.le_gt_cases (start + n) len) as [Hin|Hout].
    + f_equal. lia.
    + rewrite !firstn_all2; [reflexivity| |]; rewrite length_skipn; lia.
Qed.

Lemma firstn_then_window {A} (a b : nat) (l : list A) :
  firstn a l ++ firstn b (skipn a l) = firstn (a + b) l.
Proof.
  revert l. induction a as [|a IH]; intros l; simpl.
  - reflexivity.
  - destruct l as [|x l]; simpl.
    + now rewrite firstn_nil.
    + now rewrite IH.
Qed.

Lemma set_script_updates (i : UpdateScript.input) (now : Date) (r : S.row) :
  updated_script i now r (set_script (UpdateScript.updates i now) r).
Proof.
  destruct i as [id t d m f df l td fs n fav].
  unfold updated_script, set_script, UpdateScript.updates.
  cbn [UpdateScript.title UpdateScript.description UpdateScript.meditationType
       UpdateScript.focusArea UpdateScript.difficulty UpdateScript.language
       UpdateScript.targetDurationMinutes UpdateScript.fullScript
       UpdateScript.notes UpdateScript.isFavorite].
  destruct t, d, m, f, df, l, td, fs, n, fav; cbn; repeat split.
Qed.

Lemma set_section_updates (i : UpsertSection.input) (r : T.row) :
  updated_section i r (set_section (UpsertSection.updates i) r).
Proof.
  destruct i as [id sid oi st t b sd].
  unfold updated_section, set_section, UpsertSection.updates.
  cbn [UpsertSection.orderIndex UpsertSection.body UpsertSection.sectionType
       UpsertSection.title UpsertSection.suggestedDurationMinutes].
  destruct st, t, sd; cbn; repeat split.
Qed.

Lemma set_script_id (updates : list S.assignment) (r : S.row) :
  (set_script updates r).(S.id) = r.(S.id).
Proof.
  unfold set_script. revert r.
  induction updates as [|a l IH]; intros r; simpl.
  - reflexivity.
  - rewrite IH. now destruct a.
Qed.

Lemma set_section_keys (updates : list T.assignment) (r : T.row) :
  (set_section updates r).(T.id) = r.(T.id)
  /\ (set_section updates r).(T.scriptId) = r.(T.scriptId).
Proof.
  unfold set_section. revert r.
  induction updates as [|a l IH]; intros r; simpl.
  - split; reflexivity.
  - destruct (IH (T.assign a r)) as [-> ->]. now destruct a.
Qed.

Lemma set_script_twice (i : UpdateScript.input) (n1 n2 : Date) (r : S.row) :
  set_script (UpdateScript.updates i n2) (set_script (UpdateScript.updates i n1) r)
  = set_script (UpdateScript.updates i n2) r.
Proof.
  destruct i as [id t d m f df l td fs n fav].
  unfold set_script, UpdateScript.updates.
  cbn [UpdateScript.title UpdateScript.description UpdateScript.meditationType
       UpdateScript.focusArea UpdateScript.difficulty UpdateScript.language
       UpdateScript.targetDurationMinutes UpdateScript.fullScript
       UpdateScript.notes UpdateScript.isFavorite].
  destruct r, t, d, m, f, df, l, td, fs, n, fav; cbn; reflexivity.
Qed.

Lemma primary_key_snoc {A} (key : A -> string) (l : list A) (r : A) :
  primary_key key l -> ~ In (key r) (map key l) -> primary_key key (l ++ [r]).
Proof.
  unfold primary_key. intros Hk Hfresh. rewrite map_app. simpl.
  apply NoDup_app; [exact Hk|repeat constructor; simpl; tauto|].
  intros k Hin [<-|[]]. contradiction.
Qed.

Lemma primary_key_filter {A} (key : A -> string) (p : A -> bool) (l : list A) :
  primary_key key l -> primary_key key (filter p l).
Proof.
  unfold primary_key. induction l as [|a l IH]; simpl; intros Hk.
  - constructor.
  - inversion Hk as [|? ? Hnin Hnd]; subst.
    destruct (p a); simpl; [|now apply IH].
    constructor; [|now apply IH].
    intros Hin. apply Hnin. apply in_map_iff in Hin. destruct Hin as (x & E & Hx).
    apply filter_In in Hx. rewrite <- E. apply in_map. tauto.
Qed.

Lemma condition_satisfies (uid : string) (i : ListScripts.parsed) (s : S.row) :
  ListScripts.condition uid i s = true
  <-> satisfies uid (effective_focusArea i.(ListScripts.p_focusArea))
        i.(ListScripts.p_isFavorite) s.
Proof.
  unfold ListScripts.condition, satisfies. rewrite if_truthy_effective.
  destruct (effective_focusArea _) as [f|], i.(ListScripts.p_isFavorite) as [b|];
    rewrite ?andb_true_iff, String.eqb_eq; unfold ListScripts.eq_text.
  - rewrite eqb_true_iff.
    destruct s.(S.focusArea) as [c|].
    + rewrite String.eqb_eq. split.
      * intros [[H1 H2] H3]. repeat split; intros; congruence.
      * intros (H1 & H2 & H3). repeat split; auto.
        specialize (H2 f eq_refl). congruence.
    + split.
      * intros [[_ H] _]. discriminate.
      * intros (_ & H & _). specialize (H f eq_refl). discriminate.
  - destruct s.(S.focusArea) as [c|].
    + rewrite String.eqb_eq. split.
      * intros [H1 H2]. repeat split; intros; congruence.
      * intros (H1 & H2 & _). split; auto.
        specialize (H2 f eq_refl). congruence.
    + split.
      * intros [_ H]. discriminate.
      * intros (_ & H & _). specialize (H f eq_refl). discriminate.
  - rewrite eqb_true_iff. split.
    + intros [H1 H2]. repeat split; intros; congruence.
    + intros (H1 & _ & H3). auto.
  - split.
    + intros H. repeat split; intros; congruence.
    + tauto.
Qed.

Section SortByKey.
Context {A : Type} (key : A -> Z).

Lemma sort_insert_perm (x : A) (l : list A) :
  Permutation (sort_insert (compare_by key) x l) (x :: l).
Proof.
  induction l as [|y ys IH]; simpl.
  - reflexivity.
  - destruct (compare_by key x y <=? 0).
    + reflexivity.
    + rewrite IH. apply perm_swap.
Qed.

Lemma sort_perm (l : list A) : Permutation (sort (compare_by key) l) l.
Proof.
  induction l as [|x xs IH]; simpl.
  - reflexivity.
  - rewrite sort_insert_perm. now constructor.
Qed.

Lemma sort_insert_sorted (x : A) (l : list A) :
  StronglySorted (le_by key) l ->
  StronglySorted (le_by key) (sort_insert (compare_by key) x l).
Proof.
  induction 1 as [|y ys Hs IH Hall]; simpl.
  - repeat constructor.
  - destruct (Z.leb_spec (compare_by key x y) 0) as [Hle|Hgt];
      unfold compare_by in *.
    + constructor; [now constructor|].
      constructor; [unfold le_by; lia|].
      eapply Forall_impl; [|exact Hall]. unfold le_by. intros; lia.
    + constructor; [exact IH|].
      eapply Permutation_Forall; [symmetry; apply sort_insert_perm|].
      constructor; [unfold le_by; lia|exact Hall].
Qed.

Lemma sort_sorted (l : list A) : StronglySorted (le_by key) (sort (compare_by key) l).
Proof.
  induction l as [|x xs IH]; simpl.
  - constructor.
  - now apply sort_insert_sorted.
Qed.

(** Rows of one key keep the order they came in. *)
Lemma sort_insert_stable (k : Z) (x : A) (l : list A) :
  filter (fun a => key a =? k) (sort_insert (compare_by key) x l)
  = filter (fun a => key a =? k) (x :: l).
Proof.
  induction l as [|y ys IH]; simpl.
  - reflexivity.
  - destruct (Z.leb_spec (compare_by key x y) 0) as [Hle|Hgt];
      unfold compare_by in *.
    + reflexivity.
    + simpl in *. rewrite IH.
      destruct (Z.eqb_spec (key x) k), (Z.eqb_spec (key y) k);
        try reflexivity.
      lia.
Qed.

Lemma sort_stable (k : Z) (l : list A) :
  filter (fun a => key a =? k) (sort (compare_by key) l)
  = filter (fun a => key a =? k) l.
Proof.
  induction l as [|x xs IH]; simpl.
  - reflexivity.
  - rewrite sort_insert_stable. simpl. now rewrite IH.
Qed.
End SortByKey.

Section SortAndFilter.
Context {A : Type} (key : A -> Z) (q : A -> bool).

Lemma sort_insert_front (x : A) (l : list A) :
  Forall (le_by key x) l -> sort_insert (compare_by key) x l = x :: l.
Proof.
  intros H. destruct l as [|y ys]; simpl; [reflexivity|].
  inversion H as [|? ? Hxy _]; subst. unfold le_by in Hxy. unfold compare_by.
  destruct (Z.leb_spec (key x - key y) 0); [reflexivity|lia].
Qed.

Lemma filter_sort_insert (x : A) (l : list A) :
  StronglySorted (le_by key) l ->
  filter q (sort_insert (compare_by key) x l)
  = if q x then sort_insert (compare_by key) x (filter q l) else filter q l.
Proof.
  induction 1 as [|y ys Hs IH Hall].
  - simpl. destruct (q x); reflexivity.
  - cbn [sort_insert].
    destruct (Z.leb_spec (compare_by key x y) 0) as [Hle|Hgt];
      unfold compare_by in Hle || unfold compare_by in Hgt.
    + assert (Forall (le_by key x) (filter q (y :: ys))) as Hfront.
      { apply Forall_forall. intros z Hz. apply filter_In in Hz.
        destruct Hz as [[<-|Hz] _]; [unfold le_by; lia|].
        rewrite Forall_forall in Hall. specialize (Hall z Hz).
        unfold le_by in *. lia. }
      change (filter q (x :: y :: ys))
        with (if q x then x :: filter q (y :: ys) else filter q (y :: ys)).
      destruct (q x); [|reflexivity].
      symmetry. now apply sort_insert_front.
    + change (filter q (y :: sort_insert (compare_by key) x ys))
        with (if q y then y :: filter q (sort_insert (compare_by key) x ys)
              else filter q (sort_insert (compare_by key) x ys)).
      rewrite IH. cbn [filter].
      destruct (q y), (q x); try reflexivity.
      cbn [sort_insert].
      destruct (Z.leb_spec (compare_by key x y) 0) as [H|H]; [|reflexivity].
      unfold compare_by in H. lia.
Qed.

Lemma filter_sort (l : list A) :
  filter q (sort (compare_by key) l) = sort (compare_by key) (filter q l).
Proof.
  induction l as [|x xs IH]; simpl.
  - reflexivity.
  - rewrite filter_sort_insert by apply sort_sorted.
    rewrite IH. destruct (q x); reflexivity.
Qed.
End SortAndFilter.


(** ** Reading the store *)

Lemma decode_ok {A} (ok : A -> bool) (rows : list A) (db : Db) :
  (forall r, In r rows -> ok r = true) -> decode ok rows db = (Ok rows, db).
Proof.
  intros H. unfold decode. rewrite (proj2 (forallb_forall ok rows) H). reflexivity.
Qed.

Lemma decode_inv {A} (ok : A -> bool) (rows out : list A) (db db' : Db) :
  decode ok rows db = (Ok out, db') ->
  out = rows /\ db' = db /\ forall r, In r rows -> ok r = true.
Proof.
  unfold decode. destruct (forallb ok rows) eqn:E; [|discriminate].
  intros H. injection H as <- <-. repeat split. now apply forallb_forall.
Qed.

Lemma decode_store {A} (ok : A -> bool) (rows : list A) (db : Db) :
  snd (decode ok rows db) = db.
Proof. unfold decode. destruct (forallb ok rows); reflexivity. Qed.


Lemma select_sections_readable (cond : T.row -> bool) (db : Db) :
  (forall t, In t db.(sections) -> cond t = true -> decodable_section t = true) ->
  select_sections cond db = (Ok (filter cond db.(sections)), db).
Proof.
  intros H. unfold select_sections. apply decode_ok.
  intros r Hr. apply filter_In in Hr. now apply H.
Qed.

Lemma select_scripts_readable (cond : S.row -> bool) (db : Db) :
  (forall s, In s db.(scripts) -> cond s = true -> decodable_script s = true) ->
  select_scripts cond db = (Ok (filter cond db.(scripts)), db).
Proof.
  intros H. unfold select_scripts. apply decode_ok.
  intros r Hr. apply filter_In in Hr. now apply H.
Qed.

Lemma getOwnedScript_unfold sid uid db :
  getOwnedScript sid uid db
  = match decode decodable_script
            (filter (fun s => (s.(S.id) =? sid)%string && (s.(S.userId) =? uid)%string)
               db.(scripts)) db with
    | (Ok (script :: _), db1) => (Ok script, db1)
    | (Ok [], db1) => (Err script_not_found, db1)
    | (Err e, db1) => (Err e, db1)
    end.
Proof.
  unfold getOwnedScript, bind, select_scripts.
  destruct (decode _ _ db) as [[[|s l]|e] db1]; reflexivity.
Qed.

Lemma getOwnedScript_store sid uid db : snd (getOwnedScript sid uid db) = db.
Proof.
  rewrite getOwnedScript_unfold.
  pose proof (decode_store decodable_script
                (filter (fun s => (s.(S.id) =? sid)%string && (s.(S.userId) =? uid)%string)
                   db.(scripts)) db) as H.
  destruct (decode _ _ db) as [[[|s l]|e] db1]; exact H.
Qed.

Lemma getOwnedScript_unowned sid uid db :
  unowned sid uid db -> getOwnedScript sid uid db = (Err script_not_found, db).
Proof.
  intros H. rewrite getOwnedScript_unfold.
  match goal with
  | |- context [filter ?p ?l] => assert (filter p l = []) as ->; [|reflexivity]
  end.
  apply filter_nil_iff. intros s Hin.
  destruct (String.eqb_spec s.(S.id) sid) as [E|]; [|reflexivity].
  simpl. apply String.eqb_neq. now apply H.
Qed.

Lemma owned_rows_unique sid uid db s :
  primary_key S.id db.(scripts) -> In s db.(scripts) ->
  s.(S.id) = sid -> s.(S.userId) = uid ->
  filter (fun r => (r.(S.id) =? sid)%string && (r.(S.userId) =? uid)%string)
    db.(scripts) = [s].
Proof.
  intros Hk Hin E1 E2.
  pose proof (filter_key_unique S.id _ s sid Hk Hin E1) as Hf.
  revert Hf. generalize db.(scripts) as l. induction l as [|a l IH]; simpl.
  - discriminate.
  - destruct (String.eqb_spec a.(S.id) sid) as [Ea|Ea]; simpl.
    + intros Hf. injection Hf as -> Hl. rewrite E2, String.eqb_refl. f_equal.
      apply filter_nil_iff. intros x Hx.
      rewrite (proj1 (filter_nil_iff _ _) Hl x Hx). reflexivity.
    + exact IH.
Qed.

Lemma getOwnedScript_owned sid uid db s :
  primary_key S.id db.(scripts) -> In s db.(scripts) ->
  s.(S.id) = sid -> s.(S.userId) = uid -> decodable_script s = true ->
  getOwnedScript sid uid db = (Ok s, db).
Proof.
  intros Hk Hin E1 E2 Hd. rewrite getOwnedScript_unfold.
  rewrite (owned_rows_unique sid uid db s Hk Hin E1 E2).
  unfold decode. simpl. now rewrite Hd.
Qed.

Lemma getOwnedScript_inv sid uid db s db' :
  getOwnedScript sid uid db = (Ok s, db') ->
  db' = db /\ In s db.(scripts) /\ s.(S.id) = sid /\ s.(S.userId) = uid
  /\ decodable_script s = true.
Proof.
  rewrite getOwnedScript_unfold.
  destruct (decode _ _ db) as [[[|a l]|e] db1] eqn:Hd; try discriminate.
  intros H. injection H as E1 E2. subst a db1.
  apply decode_inv in Hd. destruct Hd as (Hrows & -> & Hok).
  assert (In s (filter (fun r => (r.(S.id) =? sid)%string && (r.(S.userId) =? uid)%string)
                  db.(scripts))) as Hin by (rewrite <- Hrows; now left).
  split; [reflexivity|]. split; [|split; [|split]].
  - now apply filter_In in Hin.
  - apply filter_In in Hin. destruct Hin as [_ Hc].
    apply andb_prop in Hc. now apply String.eqb_eq.
  - apply filter_In in Hin. destruct Hin as [_ Hc].
    apply andb_prop in Hc. now apply String.eqb_eq.
  - now apply Hok.
Qed.

Lemma getOwnedScript_failure sid uid db e db' :
  getOwnedScript sid uid db = (Err e, db') -> db' = db.
Proof.
  intros H. pose proof (getOwnedScript_store sid uid db) as Hs.
  rewrite H in Hs. exact Hs.
Qed.

Lemma getOwnedScript_scripts sid uid db1 db2 :
  db1.(scripts) = db2.(scripts) ->
  fst (getOwnedScript sid uid db1) = fst (getOwnedScript sid uid db2)
  /\ snd (getOwnedScript sid uid db1) = db1
  /\ snd (getOwnedScript sid uid db2) = db2.
Proof.
  intros E. split; [|split; apply getOwnedScript_store].
  rewrite !getOwnedScript_unfold. rewrite E. unfold decode, ret, throw.
  destruct (forallb _ _); [|reflexivity].
  destruct (filter _ db2.(scripts)); reflexivity.
Qed.

Lemma getOwnedScript_other_store sid uid db1 db2 r :
  db1.(scripts) = db2.(scripts) ->
  getOwnedScript sid uid db1 = (r, db1) -> getOwnedScript sid uid db2 = (r, db2).
Proof.
  intros E H. destruct (getOwnedScript_scripts sid uid db1 db2 E) as (Hf & _ & Hs).
  rewrite H in Hf. simpl in Hf.
  destruct (getOwnedScript sid uid db2) as [r2 d2]. simpl in *. congruence.
Qed.

(** ** The actions, step by step *)

Lemma create_run (host : Host) (user : User) (db : Db) (i : CreateScript.input) :
  host.(locals_user) = Some user ->
  CreateScript.schema i <> None ->
  createMeditationScript i host db
  = match insert_script
            (S.mk host.(randomUUID) user.(user_id)
               i.(CreateScript.title) i.(CreateScript.description)
               i.(CreateScript.meditationType) i.(CreateScript.focusArea)
               i.(CreateScript.difficulty) i.(CreateScript.language)
               i.(CreateScript.targetDurationMinutes)
               i.(CreateScript.fullScript) i.(CreateScript.notes)
               (ListScripts.default false i.(CreateScript.isFavorite))
               host.(new_Date) host.(new_Date)) db with
    | (Ok _, db1) => (Ok (mkSuccess true host.(randomUUID)), db1)
    | (Err e, db1) => (Err e, db1)
    end.
Proof.
  intros Hu Hs. unfold createMeditationScript, defineAction.
  destruct (CreateScript.schema i) as [p|] eqn:Hp; [|congruence].
  unfold CreateScript.schema in Hp.
  destruct (_ && _) in Hp; [|discriminate]. injection Hp as <-.
  unfold CreateScript.handler, requireUser. rewrite Hu.
  cbv beta iota delta [bind ret throw]. unfold ListScripts.default.
  destruct (insert_script _ db) as [[[]|e] db1]; reflexivity.
Qed.

Lemma update_run (host : Host) (user : User) (db : Db) (i : UpdateScript.input) :
  host.(locals_user) = Some user ->
  UpdateScript.schema i <> None ->
  updateMeditationScript i host db
  = match getOwnedScript i.(UpdateScript.id) user.(user_id) db with
    | (Ok _, db1) =>
        (Ok (mkSuccess true i.(UpdateScript.id)),
         mkDb (map (fun r => if update_target i user.(user_id) r
                             then set_script (UpdateScript.updates i host.(new_Date)) r
                             else r) db1.(scripts))
              db1.(sections))
    | (Err e, db1) => (Err e, db1)
    end.
Proof.
  intros Hu Hs. unfold updateMeditationScript, defineAction.
  rewrite (update_schema_accepts i Hs).
  unfold UpdateScript.handler, requireUser. rewrite Hu.
  cbv beta iota delta [bind ret throw update_scripts].
  destruct (getOwnedScript _ _ db) as [[s|e] db1]; reflexivity.
Qed.

Lemma list_run (host : Host) (user : User) (db : Db) (i : ListScripts.input)
  (p : ListScripts.parsed) :
  host.(locals_user) = Some user ->
  ListScripts.schema i = Some p ->
  listMeditationScripts i host db
  = match select_scripts (ListScripts.condition user.(user_id) p) db with
    | (Ok rows, db1) =>
        (Ok (mkSuccess true
               (ListScripts.mkPage
                  (slice rows ((p.(ListScripts.p_page) - 1) * p.(ListScripts.p_pageSize))
                     ((p.(ListScripts.p_page) - 1) * p.(ListScripts.p_pageSize)
                      + p.(ListScripts.p_pageSize)))
                  (Z.of_nat (List.length rows)))),
         db1)
    | (Err e, db1) => (Err e, db1)
    end.
Proof.
  intros Hu Hs. unfold listMeditationScripts, defineAction. rewrite Hs.
  unfold ListScripts.handler, requireUser. rewrite Hu.
  cbv beta iota delta [bind ret throw].
  destruct (select_scripts _ db) as [[rows|e] db1]; reflexivity.
Qed.

Lemma get_run (host : Host) (user : User) (db : Db) (sid : string) :
  host.(locals_user) = Some user ->
  getMeditationScriptWithSections (GetScript.mk sid) host db
  = match getOwnedScript sid user.(user_id) db with
    | (Ok script, db1) =>
        match select_sections (fun t => (t.(T.scriptId) =? script.(S.id))%string) db1 with
        | (Ok rows, db2) =>
            (Ok (mkSuccess true
                   (GetScript.mkOut script
                      (sort (fun a b => a.(T.orderIndex) - b.(T.orderIndex)) rows))),
             db2)
        | (Err e, db2) => (Err e, db2)
        end
    | (Err e, db1) => (Err e, db1)
    end.
Proof.
  intros Hu. unfold getMeditationScriptWithSections, defineAction.
  cbn [GetScript.schema]. unfold GetScript.handler, requireUser. rewrite Hu.
  cbv beta iota delta [bind ret throw]. cbn [GetScript.id].
  destruct (getOwnedScript _ _ db) as [[s|e] db1]; [|reflexivity].
  destruct (select_sections _ db1) as [[rows|e] db2]; reflexivity.
Qed.

Lemma upsert_run (host : Host) (user : User) (db : Db) (i : UpsertSection.input) :
  host.(locals_user) = Some user ->
  UpsertSection.schema i <> None ->
  upsertMeditationScriptSection i host db
  = match getOwnedScript i.(UpsertSection.scriptId) user.(user_id) db with
    | (Ok script, db1) =>
        match if_truthy i.(UpsertSection.id) with
        | Some k =>
            match select_sections (fun t => (t.(T.id) =? k)%string) db1 with
            | (Ok [], db2) => (Err section_not_found, db2)
            | (Ok (existingSection :: _), db2) =>
                if negb (existingSection.(T.scriptId) =? script.(S.id))%string
                then (Err section_forbidden, db2)
                else (Ok (mkSuccess true k),
                      mkDb db2.(scripts)
                        (map (fun r => if (r.(T.id) =? k)%string
                                       then set_section (UpsertSection.updates i) r
                                       else r) db2.(sections)))
            | (Err e, db2) => (Err e, db2)
            end
        | None =>
            match insert_section
                    (T.mk host.(randomUUID) script.(S.id)
                       i.(UpsertSection.orderIndex) i.(UpsertSection.sectionType)
                       i.(UpsertSection.title) i.(UpsertSection.body)
                       i.(UpsertSection.suggestedDurationMinutes) host.(new_Date)) db1 with
            | (Ok _, db2) => (Ok (mkSuccess true host.(randomUUID)), db2)
            | (Err e, db2) => (Err e, db2)
            end
        end
    | (Err e, db1) => (Err e, db1)
    end.
Proof.
  intros Hu Hs. unfold upsertMeditationScriptSection, defineAction.
  rewrite (upsert_schema_accepts i Hs).
  unfold UpsertSection.handler, requireUser. rewrite Hu.
  cbv beta iota delta [bind ret throw update_sections].
  destruct (getOwnedScript _ _ db) as [[s|e] db1]; [|reflexivity].
  destruct (if_truthy i.(UpsertSection.id)) as [k|].
  - destruct (select_sections _ db1) as [[[|t l]|e] db2]; try reflexivity.
    destruct (negb _); reflexivity.
  - destruct (insert_section _ db1) as [[[]|e] db2]; reflexivity.
Qed.

Lemma delete_run (host : Host) (user : User) (db : Db) (i : DeleteSection.input) :
  host.(locals_user) = Some user ->
  deleteMeditationScriptSection i host db
  = match select_sections (fun t => (t.(T.id) =? i.(DeleteSection.id))%string) db with
    | (Ok [], db1) => (Err section_not_found, db1)
    | (Ok (section :: _), db1) =>
        match getOwnedScript section.(T.scriptId) user.(user_id) db1 with
        | (Ok _, db2) =>
            (Ok (mkSuccess true i.(DeleteSection.id)),
             mkDb db2.(scripts)
               (filter (fun r => negb (r.(T.id) =? i.(DeleteSection.id))%string)
                  db2.(sections)))
        | (Err e, db2) => (Err e, db2)
        end
    | (Err e, db1) => (Err e, db1)
    end.
Proof.
  intros Hu. unfold deleteMeditationScriptSection, defineAction.
  cbn [DeleteSection.schema]. unfold DeleteSection.handler, requireUser. rewrite Hu.
  cbv beta iota delta [bind ret throw delete_sections].
  destruct (select_sections _ db) as [[[|t l]|e] db1]; reflexivity.
Qed.

Lemma insert_section_fresh (r : T.row) (db : Db) :
  ~ In r.(T.id) (map T.id db.(sections)) ->
  insert_section r db = (Ok tt, mkDb db.(scripts) (db.(sections) ++ [r])).
Proof.
  intros H. unfold insert_section. now rewrite (existsb_fresh T.id _ _ H).
Qed.

Lemma insert_script_fresh (r : S.row) (db : Db) :
  ~ In r.(S.id) (map S.id db.(scripts)) ->
  insert_script r db = (Ok tt, mkDb (db.(scripts) ++ [r]) db.(sections)).
Proof.
  intros H. unfold insert_script. now rewrite (existsb_fresh S.id _ _ H).
Qed.

Lemma sample_scripts_key : primary_key S.id Sample.db.(scripts).
Proof.
  unfold primary_key. simpl.
  repeat constructor; simpl; intuition discriminate.
Qed.

Lemma sample_sections_key : primary_key T.id Sample.db.(sections).
Proof.
  unfold primary_key. simpl.
  repeat constructor; simpl; intuition discriminate.
Qed.

Lemma sample_references : sections_reference_scripts Sample.db.
Proof.
  intros t H. simpl in H. simpl.
  intuition (subst; simpl; tauto).
Qed.

Lemma sample_readable_sections_of (sid : string) : readable_sections_of sid Sample.db.
Proof.
  intros t H _. simpl in H. intuition (subst; reflexivity).
Qed.

Lemma sample_readable_script (sid uid : string) : readable_script sid uid Sample.db.
Proof.
  intros s H _ _. simpl in H. intuition (subst; reflexivity).
Qed.

(** * Properties of the six actions *)

(** ** C1: a script that is absent or owned by someone else *)

(** C1 fails in the code for deleteMeditationScriptSection.  Bob adds to his
    script a section whose [orderIndex] is 2^53, which the upsert schema
    accepts; the script is not Alice's, yet her delete call on that section
    does not fail NOT_FOUND: the select of the section row throws, and the
    call fails INTERNAL_SERVER_ERROR. *)
Theorem delete_under_foreign_script_unsafe_integer :
  upsertMeditationScriptSection
    (UpsertSection.mk None "s-b" Sample.two_53 None None "Scan." None)
    Sample.host_bob Sample.db = (Ok (mkSuccess true "uuid-b"), Sample.db_b_big)
  /\ script_foreign "s-b" "u-alice" Sample.db_b_big
  /\ deleteMeditationScriptSection (DeleteSection.mk "uuid-b") Sample.host_alice
       Sample.db_b_big
     = (Err unsafe_integer, Sample.db_b_big)
  /\ unsafe_integer <> script_not_found.
Proof.
  split; [vm_compute; reflexivity|]. split; [|split].
  - exists Sample.script_b. simpl. intuition discriminate.
  - vm_compute. reflexivity.
  - discriminate.
Qed.

(** ** C2: pagination of listMeditationScripts *)

(** C2, as the code has it.  For an authenticated caller whose selected
    scripts hold safe integers: with [page] (default 1) at least 1 and
    [pageSize] (default 20) between 1 and 100 the call succeeds, [total] is
    the number of the caller's scripts that satisfy the filters, where a
    [focusArea] that is the empty text counts as no filter, and [items] is
    the window of those scripts, in store order, that starts at offset
    (page-1)*pageSize and holds at most pageSize of them; when no script
    satisfies the filters the call gives no items and total 0, not an error.
    Outside these ranges the call fails with the input error. *)
Theorem listScripts_pagination :
  forall (host : Host) (user : User) (db : Db) (i : ListScripts.input),
    host.(locals_user) = Some user ->
    let page := ListScripts.default 1 i.(ListScripts.page) in
    let pageSize := ListScripts.default 20 i.(ListScripts.pageSize) in
    let focus := effective_focusArea i.(ListScripts.focusArea) in
    let favorite := i.(ListScripts.isFavorite) in
    (forall s, In s db.(scripts) -> satisfies user.(user_id) focus favorite s ->
               decodable_script s = true) ->
    (1 <= page /\ 1 <= pageSize <= 100 ->
     exists (selects : S.row -> bool) items total,
       (forall s, selects s = true <-> satisfies user.(user_id) focus favorite s)
       /\ listMeditationScripts i host db
          = (Ok (mkSuccess true (ListScripts.mkPage items total)), db)
       /\ total = Z.of_nat (List.length (filter selects db.(scripts)))
       /\ items = firstn (Z.to_nat pageSize)
                    (skipn (Z.to_nat ((page - 1) * pageSize))
                       (filter selects db.(scripts)))
       /\ Z.of_nat (List.length items) <= pageSize
       /\ (filter selects db.(scripts) = [] -> items = [] /\ total = 0))
    /\ (page < 1 \/ pageSize < 1 \/ 100 < pageSize ->
        listMeditationScripts i host db = (Err ActionInputError, db)).
Proof.
  intros host user db i Hu page pageSize focus favorite Hread. split.
  - intros [Hp [Hs1 Hs2]].
    set (p := ListScripts.mkParsed page pageSize i.(ListScripts.focusArea)
                i.(ListScripts.isFavorite)).
    assert (ListScripts.schema i = Some p) as Hs.
    { unfold ListScripts.schema. fold page. fold pageSize.
      destruct (Z.ltb_spec 0 page); [|lia].
      destruct (Z.leb_spec 1 pageSize); [|lia].
      destruct (Z.leb_spec pageSize 100); [|lia]. reflexivity. }
    assert (forall s, ListScripts.condition user.(user_id) p s = true
                      <-> satisfies user.(user_id) focus favorite s) as Hsel.
    { intros s. apply condition_satisfies. }
    exists (ListScripts.condition user.(user_id) p).
    exists (firstn (Z.to_nat pageSize)
              (skipn (Z.to_nat ((page - 1) * pageSize))
                 (filter (ListScripts.condition user.(user_id) p) db.(scripts)))),
           (Z.of_nat (List.length
                        (filter (ListScripts.condition user.(user_id) p) db.(scripts)))).
    split; [exact Hsel|].
    split; [|split; [reflexivity|split; [reflexivity|split]]].
    + rewrite (list_run host user db i p Hu Hs).
      rewrite select_scripts_readable
        by (intros s Hin Hc; apply Hread; [exact Hin|now apply Hsel]).
      cbn [ListScripts.p_page ListScripts.p_pageSize p].
      rewrite slice_window by nia. reflexivity.
    + rewrite length_firstn. lia.
    + intros ->. rewrite skipn_nil, firstn_nil. split; reflexivity.
  - intros Hbad.
    unfold listMeditationScripts, defineAction, ListScripts.schema.
    fold page. fold pageSize.
    destruct (Z.ltb_spec 0 page); simpl; [|reflexivity].
    destruct (Z.leb_spec 1 pageSize); simpl; [|reflexivity].
    destruct (Z.leb_spec pageSize 100); simpl; [|reflexivity].
    lia.
Qed.

Lemma listScripts_pagination_witness :
  listMeditationScripts (ListScripts.mk (Some 2) (Some 1) None None)
    Sample.host_alice Sample.db
  = (Ok (mkSuccess true (ListScripts.mkPage [Sample.script_a2] 2)), Sample.db)
  /\ listMeditationScripts (ListScripts.mk (Some 3) (Some 1) None None)
       Sample.host_alice Sample.db
     = (Ok (mkSuccess true (ListScripts.mkPage [] 2)), Sample.db)
  /\ listMeditationScripts (ListScripts.mk (Some 1) (Some 101) None None)
       Sample.host_alice Sample.db
     = (Err ActionInputError, Sample.db).
Proof.
  assert (forall f b s, In s Sample.db.(scripts) -> satisfies "u-alice" f b s ->
                        decodable_script s = true) as Hread.
  { intros f b s H _. simpl in H. intuition (subst; reflexivity). }
  split; [|split].
  - destruct (listScripts_pagination Sample.host_alice Sample.alice Sample.db
                (ListScripts.mk (Some 2) (Some 1) None None) eq_refl (Hread _ _))
      as [H _].
    destruct H as (sel & items & total & _ & E & _); [simpl; lia|].
    rewrite E. vm_compute in E. injection E as <- <-. reflexivity.
  - destruct (listScripts_pagination Sample.host_alice Sample.alice Sample.db
                (ListScripts.mk (Some 3) (Some 1) None None) eq_refl (Hread _ _))
      as [H _].
    destruct H as (sel & items & total & _ & E & _); [simpl; lia|].
    rewrite E. vm_compute in E. injection E as <- <-. reflexivity.
  - destruct (listScripts_pagination Sample.host_alice Sample.alice Sample.db
                (ListScripts.mk (Some 1) (Some 101) None None) eq_refl (Hread _ _))
      as [_ H].
    apply H. simpl. lia.
Defined.

(** C2 as stated fails at the empty text: with [focusArea] given as "" no
    script of the caller matches the filters, yet the call returns two items
    and total 2. *)
Lemma listScripts_pagination_counterexample :
  let i := ListScripts.mk (Some 1) (Some 20) (Some "") None in
  listMeditationScripts i Sample.host_alice Sample.db
  = (Ok (mkSuccess true (ListScripts.mkPage [Sample.script_a; Sample.script_a2] 2)),
     Sample.db)
  /\ (forall s, In s Sample.db.(scripts) ->
                ~ satisfies "u-alice" i.(ListScripts.focusArea)
                    i.(ListScripts.isFavorite) s).
Proof.
  simpl. split; [reflexivity|].
  intros s Hin (_ & H & _). specialize (H "" eq_refl).
  intuition (subst; discriminate).
Qed.

(** ** C3: the filters of listMeditationScripts *)

(** C3, as the code has it.  For an authenticated caller whose selected
    scripts hold safe integers and a payload the schema accepts, the call
    succeeds; every returned item is a row of the scripts table that belongs
    to the caller, has the given [focusArea] when one is given and is not the
    empty text, and has the given [isFavorite] when one is given; [total]
    counts exactly the rows of the scripts table that satisfy these
    conditions together.  A filter that is not given, and a [focusArea] that
    is the empty text, restrict nothing. *)
Theorem listScripts_filters :
  forall (host : Host) (user : User) (db : Db) (i : ListScripts.input),
    host.(locals_user) = Some user ->
    ListScripts.schema i <> None ->
    let focus := effective_focusArea i.(ListScripts.focusArea) in
    let favorite := i.(ListScripts.isFavorite) in
    (forall s, In s db.(scripts) -> satisfies user.(user_id) focus favorite s ->
               decodable_script s = true) ->
    exists out,
      listMeditationScripts i host db = (Ok out, db)
      /\ (forall s, In s out.(data).(ListScripts.items) ->
                    In s db.(scripts) /\ satisfies user.(user_id) focus favorite s)
      /\ exists selects : S.row -> bool,
           (forall s, selects s = true <-> satisfies user.(user_id) focus favorite s)
           /\ out.(data).(ListScripts.total)
              = Z.of_nat (List.length (filter selects db.(scripts))).
Proof.
  intros host user db i Hu Hvalid focus favorite Hread.
  destruct (ListScripts.schema i) as [p|] eqn:Hs; [|congruence].
  assert (p.(ListScripts.p_focusArea) = i.(ListScripts.focusArea)
          /\ p.(ListScripts.p_isFavorite) = i.(ListScripts.isFavorite)) as [Ef Eb].
  { unfold ListScripts.schema in Hs.
    destruct (_ && _) in Hs; [|discriminate]. injection Hs as <-. auto. }
  assert (forall s, ListScripts.condition user.(user_id) p s = true
                    <-> satisfies user.(user_id) focus favorite s) as Hsel.
  { intros s. rewrite condition_satisfies, Ef, Eb. reflexivity. }
  rewrite (list_run host user db i p Hu Hs).
  rewrite select_scripts_readable
    by (intros s Hin Hc; apply Hread; [exact Hin|now apply Hsel]).
  eexists. split; [reflexivity|].
  cbn [data ListScripts.items ListScripts.total].
  split.
  - intros s Hin. unfold slice in Hin.
    apply in_firstn, in_skipn in Hin.
    apply filter_In in Hin. destruct Hin as [Hin Hc]. split; [exact Hin|].
    now apply Hsel.
  - exists (ListScripts.condition user.(user_id) p). split; [exact Hsel|reflexivity].
Qed.

Lemma listScripts_filters_witness :
  exists out,
    listMeditationScripts (ListScripts.mk None None (Some "sleep") (Some true))
      Sample.host_alice Sample.db = (Ok out, Sample.db)
    /\ (forall s, In s out.(data).(ListScripts.items) ->
          In s Sample.db.(scripts)
          /\ satisfies "u-alice" (Some "sleep") (Some true) s)
    /\ exists selects : S.row -> bool,
         (forall s, selects s = true <-> satisfies "u-alice" (Some "sleep") (Some true) s)
         /\ out.(data).(ListScripts.total)
            = Z.of_nat (List.length (filter selects Sample.db.(scripts))).
Proof.
  apply (listScripts_filters Sample.host_alice Sample.alice Sample.db
           (ListScripts.mk None None (Some "sleep") (Some true))).
  - reflexivity.
  - discriminate.
  - intros s H _. simpl in H. intuition (subst; reflexivity).
Defined.


(** C3 as stated fails at the empty text: the filter is given, yet a row with
    another focus area is returned and counted. *)
Lemma listScripts_filters_counterexample :
  exists out,
    listMeditationScripts (ListScripts.mk None None (Some "") None)
      Sample.host_alice Sample.db = (Ok out, Sample.db)
    /\ In Sample.script_a out.(data).(ListScripts.items)
    /\ out.(data).(ListScripts.total) = 2
    /\ ~ satisfies "u-alice" (Some "") None Sample.script_a
    /\ ~ satisfies "u-alice" (Some "") None Sample.script_a2.
Proof.
  eexists. split; [reflexivity|]. simpl. repeat split.
  - now left.
  - intros (_ & H & _). specialize (H "" eq_refl). discriminate.
  - intros (_ & H & _). specialize (H "" eq_refl). discriminate.
Qed.

(** ** C4: updateMeditationScript is a partial update *)

Lemma getOwnedScript_exists sid uid db s :
  In s db.(scripts) -> owned_by sid uid s -> readable_script sid uid db ->
  exists s', getOwnedScript sid uid db = (Ok s', db)
             /\ In s' db.(scripts) /\ owned_by sid uid s'.
Proof.
  intros Hin Hown Hread. rewrite getOwnedScript_unfold.
  rewrite decode_ok.
  2:{ intros r Hr. apply filter_In in Hr. destruct Hr as [Hr Hc].
      apply owner_condition in Hc. destruct Hc. now apply Hread. }
  destruct (filter _ db.(scripts)) as [|a l] eqn:Hf.
  - exfalso. rewrite filter_nil_iff in Hf. specialize (Hf s Hin).
    apply owner_condition in Hown. congruence.
  - exists a. split; [reflexivity|].
    assert (In a (filter (fun r => (r.(S.id) =? sid)%string && (r.(S.userId) =? uid)%string)
                    db.(scripts))) as Ha by (rewrite Hf; now left).
    apply filter_In in Ha. destruct Ha as [Ha Hc].
    apply owner_condition in Hc. auto.
Qed.

(** C4.  For an authenticated caller: a payload with no field besides [id]
    is refused with the input error and the store is left as it was.  When
    the call succeeds it returns the given id, the caller owns a row with
    that id, the sections table is untouched, and the scripts table changes
    row by row: a row with the given id owned by the caller takes the values
    of the given fields, keeps the value of every field that is not given
    ([id], [userId] and [createdAt] are never given) and gets the time of the
    call as [updatedAt]; every other row is unchanged.  The call does succeed
    whenever the schema accepts the payload and the caller owns such a row
    that holds safe integers. *)
Theorem updateScript_partial_update :
  forall (host : Host) (user : User) (db : Db) (i : UpdateScript.input),
    host.(locals_user) = Some user ->
    let target := owned_by i.(UpdateScript.id) user.(user_id) in
    (UpdateScript.refine i = false ->
     updateMeditationScript i host db = (Err ActionInputError, db))
    /\ (forall out db',
          updateMeditationScript i host db = (Ok out, db') ->
          out = mkSuccess true i.(UpdateScript.id)
          /\ db'.(sections) = db.(sections)
          /\ (exists old, In old db.(scripts) /\ target old)
          /\ Forall2 (fun old new =>
                        (target old -> updated_script i host.(new_Date) old new)
                        /\ (~ target old -> new = old))
               db.(scripts) db'.(scripts))
    /\ (UpdateScript.schema i <> None ->
        (exists old, In old db.(scripts) /\ target old) ->
        readable_script i.(UpdateScript.id) user.(user_id) db ->
        exists db', updateMeditationScript i host db
                    = (Ok (mkSuccess true i.(UpdateScript.id)), db')).
Proof.
  intros host user db i Hu target. split; [|split].
  - intros Hr. unfold updateMeditationScript, defineAction, UpdateScript.schema.
    rewrite Hr, andb_false_r. reflexivity.
  - intros out db' Hcall.
    assert (UpdateScript.schema i <> None) as Hs.
    { intros E. unfold updateMeditationScript, defineAction in Hcall.
      rewrite E in Hcall. discriminate. }
    rewrite (update_run host user db i Hu Hs) in Hcall.
    destruct (getOwnedScript _ _ db) as [[s|e] db1] eqn:Hg; [|discriminate].
    apply getOwnedScript_inv in Hg. destruct Hg as (-> & Hin & E1 & E2 & _).
    injection Hcall as <- <-. cbn [scripts sections].
    split; [reflexivity|]. split; [reflexivity|]. split.
    + exists s. split; [exact Hin|]. split; assumption.
    + apply Forall2_map_self. intros x _. unfold update_target.
      destruct (_ && _) eqn:Hc.
      * split; [intros _; apply set_script_updates|].
        intros Hn. apply owner_condition in Hc. contradiction.
      * split; [|reflexivity].
        intros Ht. apply owner_condition in Ht. unfold target in Ht. congruence.
  - intros Hs (old & Hin & Hown) Hread.
    rewrite (update_run host user db i Hu Hs).
    destruct (getOwnedScript_exists _ _ _ _ Hin Hown Hread) as (s' & -> & _).
    eexists. reflexivity.
Qed.


Lemma updateScript_partial_update_witness :
  updateMeditationScript
    (UpdateScript.mk "s-a" None None None None None None None None None None)
    Sample.host_alice Sample.db = (Err ActionInputError, Sample.db)
  /\ exists db',
       updateMeditationScript
         (UpdateScript.mk "s-a" (Some "X") None None None None None None None None None)
         Sample.host_alice Sample.db = (Ok (mkSuccess true "s-a"), db')
       /\ db'.(sections) = Sample.db.(sections)
       /\ exists new rest,
            db'.(scripts) = new :: rest
            /\ new.(S.title) = "X" /\ new.(S.updatedAt) = 1000
            /\ new.(S.focusArea) = Some "stress" /\ new.(S.createdAt) = 10.
Proof.
  split.
  - apply (updateScript_partial_update Sample.host_alice Sample.alice Sample.db
             (UpdateScript.mk "s-a" None None None None None None None None None None)
             eq_refl).
    reflexivity.
  - destruct (updateScript_partial_update Sample.host_alice Sample.alice Sample.db
                (UpdateScript.mk "s-a" (Some "X") None None None None None None None
                   None None) eq_refl) as (_ & Hpost & Hex).
    destruct Hex as [db' Hcall].
    { discriminate. }
    { exists Sample.script_a. simpl. unfold owned_by. simpl. tauto. }
    { apply sample_readable_script. }
    exists db'. split; [exact Hcall|].
    destruct (Hpost _ _ Hcall) as (_ & Hsec & _ & Hrows).
    split; [exact Hsec|].
    simpl in Hrows. inversion Hrows as [|old new l l' [Hupd _] Hrest Eold Enew]; subst.
    exists new, l'. split; [reflexivity|].
    destruct Hupd as (_ & _ & Hc & Ht & _ & _ & Hf & _ & _ & _ & _ & _ & _ & Hu).
    { split; reflexivity. }
    simpl in *. auto.
Defined.

(** ** C5: sections come back in a stable ascending order *)

(** C5 fails in the code on a script that has a section whose [orderIndex]
    is 2^53.  Alice adds such a section to her script, which the upsert
    schema accepts and the store keeps; getMeditationScriptWithSections on
    that script then returns no sections at all: the select of the section
    rows throws and the call fails INTERNAL_SERVER_ERROR. *)
Theorem getScriptWithSections_unsafe_integer :
  upsertMeditationScriptSection
    (UpsertSection.mk None "s-a" Sample.two_53 None None "Breathe." None)
    Sample.host_alice Sample.db = (Ok (mkSuccess true "uuid-1"), Sample.db_a_big)
  /\ In Sample.script_a Sample.db_a_big.(scripts)
  /\ owned_by "s-a" "u-alice" Sample.script_a
  /\ getMeditationScriptWithSections (GetScript.mk "s-a") Sample.host_alice_later
       Sample.db_a_big
     = (Err unsafe_integer, Sample.db_a_big).
Proof.
  split; [vm_compute; reflexivity|]. split; [simpl; tauto|].
  split; [split; reflexivity|]. vm_compute. reflexivity.
Qed.

(** ** C6: the update branch of upsertMeditationScriptSection *)

(** C6, as the code has it.  For an upsert call whose [id] is present and is
    not the empty text, once the parent script owned by the caller is
    resolved: with no section of that id the call fails NOT_FOUND; with a
    section of that id, holding safe integers, under another script it fails
    FORBIDDEN; in both cases the store is left as it was.  With a section of
    that id, holding safe integers, under the resolved script the call
    returns the given id, and the section gets the payload's [orderIndex]
    and [body], gets [sectionType], [title] and [suggestedDurationMinutes]
    only when the payload gives them, and keeps everything else; no other
    row of either table changes. *)
Theorem upsertSection_with_id :
  forall (host : Host) (user : User) (db : Db) (i : UpsertSection.input)
         (sid : string) (s : S.row),
    host.(locals_user) = Some user ->
    UpsertSection.schema i <> None ->
    primary_key T.id db.(sections) ->
    i.(UpsertSection.id) = Some sid -> sid <> "" ->
    getOwnedScript i.(UpsertSection.scriptId) user.(user_id) db = (Ok s, db) ->
    ((forall t, In t db.(sections) -> t.(T.id) <> sid) ->
     upsertMeditationScriptSection i host db = (Err section_not_found, db))
    /\ (forall t, In t db.(sections) -> t.(T.id) = sid ->
                  decodable_section t = true ->
                  t.(T.scriptId) <> s.(S.id) ->
        upsertMeditationScriptSection i host db = (Err section_forbidden, db))
    /\ (forall t, In t db.(sections) -> t.(T.id) = sid ->
                  decodable_section t = true ->
                  t.(T.scriptId) = s.(S.id) ->
        exists db',
          upsertMeditationScriptSection i host db = (Ok (mkSuccess true sid), db')
          /\ db'.(scripts) = db.(scripts)
          /\ Forall2 (fun old new =>
                        (old.(T.id) = sid -> updated_section i old new)
                        /\ (old.(T.id) <> sid -> new = old))
               db.(sections) db'.(sections)).
Proof.
  intros host user db i sid s Hu Hs Hk Hid Hne Hg.
  rewrite (upsert_run host user db i Hu Hs), Hg, Hid, (if_truthy_nonempty sid Hne).
  unfold select_sections. split; [|split].
  - intros Hnone.
    replace (filter (fun t => (t.(T.id) =? sid)%string) db.(sections)) with (@nil T.row);
      [reflexivity|].
    symmetry. apply filter_nil_iff. intros t Ht. apply String.eqb_neq. now apply Hnone.
  - intros t Ht Et Hd Hpar.
    rewrite (filter_key_unique T.id _ t sid Hk Ht Et).
    unfold decode. cbn [forallb]. rewrite Hd. cbn [andb ret].
    destruct (String.eqb_spec t.(T.scriptId) s.(S.id)); [contradiction|reflexivity].
  - intros t Ht Et Hd Hpar.
    rewrite (filter_key_unique T.id _ t sid Hk Ht Et).
    unfold decode. cbn [forallb]. rewrite Hd. cbn [andb ret].
    rewrite Hpar, String.eqb_refl. cbn [negb].
    eexists. split; [reflexivity|]. split; [reflexivity|]. cbn [sections].
    apply Forall2_map_self. intros x _.
    destruct (String.eqb_spec x.(T.id) sid) as [E|E].
    + split; [intros _; apply set_section_updates|contradiction].
    + split; [contradiction|reflexivity].
Qed.

Lemma upsertSection_with_id_witness :
  upsertMeditationScriptSection
    (UpsertSection.mk (Some "t-9") "s-a" 2 None None "Breathe out." None)
    Sample.host_alice Sample.db = (Err section_not_found, Sample.db)
  /\ upsertMeditationScriptSection
       (UpsertSection.mk (Some "t-1") "s-a2" 2 None None "Breathe out." None)
       Sample.host_alice Sample.db = (Err section_forbidden, Sample.db)
  /\ exists db',
       upsertMeditationScriptSection
         (UpsertSection.mk (Some "t-1") "s-a" 2 None (Some "Out") "Breathe out." None)
         Sample.host_alice Sample.db = (Ok (mkSuccess true "t-1"), db')
       /\ db'.(scripts) = Sample.db.(scripts)
       /\ exists new rest,
            db'.(sections) = new :: rest
            /\ new.(T.orderIndex) = 2 /\ new.(T.body) = "Breathe out."
            /\ new.(T.title) = Some "Out" /\ new.(T.sectionType) = Some "closing".
Proof.
  split; [|split].
  - apply (upsertSection_with_id Sample.host_alice Sample.alice Sample.db
             (UpsertSection.mk (Some "t-9") "s-a" 2 None None "Breathe out." None)
             "t-9" Sample.script_a eq_refl).
    + discriminate.
    + exact sample_sections_key.
    + reflexivity.
    + discriminate.
    + reflexivity.
    + simpl. intuition (subst; discriminate).
  - apply (upsertSection_with_id Sample.host_alice Sample.alice Sample.db
             (UpsertSection.mk (Some "t-1") "s-a2" 2 None None "Breathe out." None)
             "t-1" Sample.script_a2 eq_refl) with (t := Sample.section_a1).
    + discriminate.
    + exact sample_sections_key.
    + reflexivity.
    + discriminate.
    + reflexivity.
    + simpl. tauto.
    + reflexivity.
    + reflexivity.
    + discriminate.
  - destruct (upsertSection_with_id Sample.host_alice Sample.alice Sample.db
                (UpsertSection.mk (Some "t-1") "s-a" 2 None (Some "Out") "Breathe out." None)
                "t-1" Sample.script_a eq_refl) as (_ & _ & H).
    + discriminate.
    + exact sample_sections_key.
    + reflexivity.
    + discriminate.
    + reflexivity.
    + destruct (H Sample.section_a1) as (db' & E & Hscripts & Hrows).
      * simpl. tauto.
      * reflexivity.
      * reflexivity.
      * reflexivity.
      * exists db'. split; [exact E|]. split; [exact Hscripts|].
        simpl in Hrows.
        inversion Hrows as [|old new l l' [Hupd _] Hrest Eold Enew]; subst.
        exists new, l'. split; [reflexivity|].
        destruct (Hupd eq_refl) as (_ & _ & _ & Ho & Hb & Hst & Ht & _).
        simpl in *. auto.
Defined.


(** C6 as stated fails when the [id] that is present is the empty text: no
    section has that id, yet the call does not fail NOT_FOUND but inserts a
    new section under a generated id. *)
Lemma upsertSection_with_id_counterexample :
  let i := UpsertSection.mk (Some "") "s-a" 5 None None "Breathe." None in
  i.(UpsertSection.id) = Some ""
  /\ (forall t, In t Sample.db.(sections) -> t.(T.id) <> "")
  /\ upsertMeditationScriptSection i Sample.host_alice Sample.db
     = (Ok (mkSuccess true "uuid-1"),
        mkDb Sample.db.(scripts)
          (Sample.db.(sections) ++ [T.mk "uuid-1" "s-a" 5 None None "Breathe." None 1000]))
  /\ upsertMeditationScriptSection i Sample.host_alice Sample.db
     <> (Err section_not_found, Sample.db).
Proof.
  simpl. split; [reflexivity|]. split; [|split].
  - intros t H. intuition (subst; discriminate).
  - reflexivity.
  - discriminate.
Qed.

(** ** C7: a created script reads back as given *)

(** C7 fails in the code for a payload whose [targetDurationMinutes] is
    2^53.  The create schema accepts it, createMeditationScript stores the
    row and returns its id; getMeditationScriptWithSections with that id
    then does not return the script: the select of the row throws and the
    call fails INTERNAL_SERVER_ERROR. *)
Theorem create_then_get_unsafe_integer :
  CreateScript.schema
    (CreateScript.mk "Long Sit" None None None None None (Some Sample.two_53)
       None None None) <> None
  /\ createMeditationScript
       (CreateScript.mk "Long Sit" None None None None None (Some Sample.two_53)
          None None None)
       Sample.host_alice Sample.db
     = (Ok (mkSuccess true "uuid-1"), Sample.db_script_big)
  /\ getMeditationScriptWithSections (GetScript.mk "uuid-1") Sample.host_alice_later
       Sample.db_script_big
     = (Err unsafe_integer, Sample.db_script_big).
Proof.
  split; [discriminate|]. split; vm_compute; reflexivity.
Qed.

(** ** C8: deleteMeditationScriptSection *)

(** C8 fails in the code for a section whose [orderIndex] is 2^53.  Alice
    adds such a section to her own script, which the upsert schema accepts;
    her delete call with the returned id then neither deletes the section nor
    fails NOT_FOUND: the select of the section row throws, the call fails
    INTERNAL_SERVER_ERROR and the section stays in the store. *)
Theorem deleteSection_unsafe_integer :
  upsertMeditationScriptSection
    (UpsertSection.mk None "s-a" Sample.two_53 None None "Breathe." None)
    Sample.host_alice Sample.db = (Ok (mkSuccess true "uuid-1"), Sample.db_a_big)
  /\ In Sample.section_a_big Sample.db_a_big.(sections)
  /\ Sample.section_a_big.(T.id) = "uuid-1"
  /\ owned_by Sample.section_a_big.(T.scriptId) "u-alice" Sample.script_a
  /\ deleteMeditationScriptSection (DeleteSection.mk "uuid-1") Sample.host_alice_later
       Sample.db_a_big
     = (Err unsafe_integer, Sample.db_a_big).
Proof.
  split; [vm_compute; reflexivity|]. split; [simpl; tauto|].
  split; [reflexivity|]. split; [split; reflexivity|]. vm_compute. reflexivity.
Qed.


(** ** C9: what an upsert call can learn about other users' sections *)





(** ** C10: an empty [id] takes the create branch *)

(** C10.  An upsert call whose [id] is present but is the empty text does
    what the same call without [id] does.  For an authenticated caller, a
    payload the schema accepts, a parent script that resolves for the caller
    and a generated id that no section carries yet, it succeeds with the
    generated id and appends a new section under the named script to the
    sections table; it does not fail NOT_FOUND for a missing section of
    id "". *)
Theorem upsertSection_empty_id_creates :
  forall (host : Host) (user : User) (db : Db) (i : UpsertSection.input) (s : S.row),
    i.(UpsertSection.id) = Some "" ->
    host.(locals_user) = Some user ->
    UpsertSection.schema i <> None ->
    getOwnedScript i.(UpsertSection.scriptId) user.(user_id) db = (Ok s, db) ->
    ~ In host.(randomUUID) (map T.id db.(sections)) ->
    upsertMeditationScriptSection i host db
    = (Ok (mkSuccess true host.(randomUUID)),
       mkDb db.(scripts)
         (db.(sections)
          ++ [T.mk host.(randomUUID) i.(UpsertSection.scriptId)
                i.(UpsertSection.orderIndex) i.(UpsertSection.sectionType)
                i.(UpsertSection.title) i.(UpsertSection.body)
                i.(UpsertSection.suggestedDurationMinutes) host.(new_Date)]))
    /\ upsertMeditationScriptSection i host db
       = upsertMeditationScriptSection
           (UpsertSection.mk None i.(UpsertSection.scriptId)
              i.(UpsertSection.orderIndex) i.(UpsertSection.sectionType)
              i.(UpsertSection.title) i.(UpsertSection.body)
              i.(UpsertSection.suggestedDurationMinutes))
           host db.
Proof.
  intros host user db i s Hid Hu Hs Hg Hfresh. split.
  - rewrite (upsert_run host user db i Hu Hs), Hg, Hid.
    cbn [if_truthy truthy String.eqb negb].
    destruct (getOwnedScript_inv _ _ _ _ _ Hg) as (_ & _ & Es & _).
    rewrite insert_section_fresh by exact Hfresh. now rewrite Es.
  - destruct i as [id sid oi st t b sd]. simpl in Hid. subst id.
    unfold upsertMeditationScriptSection, defineAction, UpsertSection.schema.
    cbn [UpsertSection.orderIndex UpsertSection.body
         UpsertSection.suggestedDurationMinutes].
    destruct (_ && _); reflexivity.
Qed.

Lemma upsertSection_empty_id_creates_witness :
  upsertMeditationScriptSection
    (UpsertSection.mk (Some "") "s-a" 5 None None "Breathe." None)
    Sample.host_alice Sample.db
  = (Ok (mkSuccess true "uuid-1"),
     mkDb Sample.db.(scripts)
       (Sample.db.(sections) ++ [T.mk "uuid-1" "s-a" 5 None None "Breathe." None 1000])).
Proof.
  apply (upsertSection_empty_id_creates Sample.host_alice Sample.alice Sample.db
           (UpsertSection.mk (Some "") "s-a" 5 None None "Breathe." None)
           Sample.script_a).
  - reflexivity.
  - reflexivity.
  - discriminate.
  - reflexivity.
  - simpl. intuition discriminate.
Defined.


(** * Properties across actions *)

(** ** Calls without a signed-in user *)

(** X1.  Without a signed-in user every action fails and leaves the store as
    it was: with the handler's UNAUTHORIZED error when the schema accepts the
    payload, with the input error when it does not (the schema is checked
    before the handler looks for the user). *)
Theorem signed_out_calls_fail :
  forall (host : Host) (db : Db),
    host.(locals_user) = None ->
    (forall i, createMeditationScript i host db
               = (Err (signed_out_error CreateScript.schema i), db))
    /\ (forall i, updateMeditationScript i host db
                  = (Err (signed_out_error UpdateScript.schema i), db))
    /\ (forall i, listMeditationScripts i host db
                  = (Err (signed_out_error ListScripts.schema i), db))
    /\ (forall i, getMeditationScriptWithSections i host db = (Err unauthorized, db))
    /\ (forall i, upsertMeditationScriptSection i host db
                  = (Err (signed_out_error UpsertSection.schema i), db))
    /\ (forall i, deleteMeditationScriptSection i host db = (Err unauthorized, db)).
Proof.
  intros host db Hu.
  split; [|split; [|split; [|split; [|split]]]]; intros i.
  - unfold createMeditationScript, defineAction, signed_out_error.
    destruct (CreateScript.schema i); [|reflexivity].
    unfold CreateScript.handler, requireUser. now rewrite Hu.
  - unfold updateMeditationScript, defineAction, signed_out_error.
    destruct (UpdateScript.schema i); [|reflexivity].
    unfold UpdateScript.handler, requireUser. now rewrite Hu.
  - unfold listMeditationScripts, defineAction, signed_out_error.
    destruct (ListScripts.schema i); [|reflexivity].
    unfold ListScripts.handler, requireUser. now rewrite Hu.
  - unfold getMeditationScriptWithSections, defineAction. simpl.
    unfold GetScript.handler, requireUser. now rewrite Hu.
  - unfold upsertMeditationScriptSection, defineAction, signed_out_error.
    destruct (UpsertSection.schema i); [|reflexivity].
    unfold UpsertSection.handler, requireUser. now rewrite Hu.
  - unfold deleteMeditationScriptSection, defineAction. simpl.
    unfold DeleteSection.handler, requireUser. now rewrite Hu.
Qed.

Lemma signed_out_calls_fail_witness :
  createMeditationScript
    (CreateScript.mk "Morning Calm" None None None None None None None None None)
    (mkHost None 1000 "uuid-1") Sample.db = (Err unauthorized, Sample.db)
  /\ createMeditationScript
       (CreateScript.mk "" None None None None None None None None None)
       (mkHost None 1000 "uuid-1") Sample.db = (Err ActionInputError, Sample.db)
  /\ deleteMeditationScriptSection (DeleteSection.mk "t-1")
       (mkHost None 1000 "uuid-1") Sample.db = (Err unauthorized, Sample.db).
Proof.
  destruct (signed_out_calls_fail (mkHost None 1000 "uuid-1") Sample.db eq_refl)
    as (Hc & _ & _ & _ & _ & Hd).
  split; [|split].
  - exact (Hc (CreateScript.mk "Morning Calm" None None None None None None None
                 None None)).
  - exact (Hc (CreateScript.mk "" None None None None None None None None None)).
  - exact (Hd (DeleteSection.mk "t-1")).
Defined.

(** ** Failures write nothing *)

Lemma select_sections_store (cond : T.row -> bool) (db : Db) :
  snd (select_sections cond db) = db.
Proof. apply decode_store. Qed.

Lemma select_scripts_store (cond : S.row -> bool) (db : Db) :
  snd (select_scripts cond db) = db.
Proof. apply decode_store. Qed.

Lemma select_sections_inv (cond : T.row -> bool) (db db' : Db) (rows : list T.row) :
  select_sections cond db = (Ok rows, db') ->
  rows = filter cond db.(sections) /\ db' = db.
Proof.
  intros H. apply decode_inv in H. tauto.
Qed.

(** One read of the store: it leaves the store as it was. *)
Ltac read_store :=
  match goal with
  | |- context [getOwnedScript ?a ?b ?d] =>
      let H := fresh "Hst" in
      let db1 := fresh "db1" in
      pose proof (getOwnedScript_store a b d) as H;
      destruct (getOwnedScript a b d) as [[?s|?e] db1] eqn:?Hg;
      cbn [snd] in H; subst db1
  | |- context [select_sections ?c ?d] =>
      let H := fresh "Hst" in
      let db1 := fresh "db1" in
      pose proof (select_sections_store c d) as H;
      destruct (select_sections c d) as [[[|?t ?l]|?e] db1] eqn:?Hsel;
      cbn [snd] in H; subst db1
  | |- context [select_scripts ?c ?d] =>
      let H := fresh "Hst" in
      let db1 := fresh "db1" in
      pose proof (select_scripts_store c d) as H;
      destruct (select_scripts c d) as [[?rows|?e] db1] eqn:?Hsel;
      cbn [snd] in H; subst db1
  end.

Ltac unchanged_on_failure :=
  let e := fresh "e" in
  let db' := fresh "db'" in
  let H := fresh "H" in
  intros e db' H;
  first [ discriminate H | now (injection H as _ <-) ].

(** X3.  A call that fails has written nothing: whenever one of the six
    actions returns an error, of whatever kind, the store it leaves is the
    store it was given. *)
Theorem failed_calls_write_nothing :
  forall (host : Host) (db : Db),
    (forall i e db', createMeditationScript i host db = (Err e, db') -> db' = db)
    /\ (forall i e db', updateMeditationScript i host db = (Err e, db') -> db' = db)
    /\ (forall i e db', listMeditationScripts i host db = (Err e, db') -> db' = db)
    /\ (forall i e db',
          getMeditationScriptWithSections i host db = (Err e, db') -> db' = db)
    /\ (forall i e db',
          upsertMeditationScriptSection i host db = (Err e, db') -> db' = db)
    /\ (forall i e db',
          deleteMeditationScriptSection i host db = (Err e, db') -> db' = db).
Proof.
  intros host db.
  split; [|split; [|split; [|split; [|split]]]]; intros i.
  - unfold createMeditationScript, defineAction.
    destruct (CreateScript.schema i) as [p|]; [|unchanged_on_failure].
    unfold CreateScript.handler, requireUser.
    destruct host.(locals_user) as [user|]; [|unchanged_on_failure].
    cbv beta iota delta [bind ret throw insert_script].
    destruct (existsb _ db.(scripts)); unchanged_on_failure.
  - unfold updateMeditationScript, defineAction.
    destruct (UpdateScript.schema i) as [p|]; [|unchanged_on_failure].
    unfold UpdateScript.handler, requireUser.
    destruct host.(locals_user) as [user|]; [|unchanged_on_failure].
    cbv beta iota delta [bind ret throw update_scripts].
    read_store; unchanged_on_failure.
  - unfold listMeditationScripts, defineAction.
    destruct (ListScripts.schema i) as [p|]; [|unchanged_on_failure].
    unfold ListScripts.handler, requireUser.
    destruct host.(locals_user) as [user|]; [|unchanged_on_failure].
    cbv beta iota delta [bind ret throw].
    read_store; unchanged_on_failure.
  - unfold getMeditationScriptWithSections, defineAction. simpl.
    unfold GetScript.handler, requireUser.
    destruct host.(locals_user) as [user|]; [|unchanged_on_failure].
    cbv beta iota delta [bind ret throw].
    read_store; [|unchanged_on_failure].
    read_store; unchanged_on_failure.
  - unfold upsertMeditationScriptSection, defineAction.
    destruct (UpsertSection.schema i) as [p|]; [|unchanged_on_failure].
    unfold UpsertSection.handler, requireUser.
    destruct host.(locals_user) as [user|]; [|unchanged_on_failure].
    cbv beta iota delta [bind ret throw update_sections insert_section].
    read_store; [|unchanged_on_failure].
    destruct (if_truthy p.(UpsertSection.id)) as [k|].
    + read_store; try unchanged_on_failure.
      destruct (negb _); unchanged_on_failure.
    + destruct (existsb _ db.(sections)); unchanged_on_failure.
  - unfold deleteMeditationScriptSection, defineAction. simpl.
    unfold DeleteSection.handler, requireUser.
    destruct host.(locals_user) as [user|]; [|unchanged_on_failure].
    cbv beta iota delta [bind ret throw delete_sections].
    read_store; try unchanged_on_failure.
    read_store; unchanged_on_failure.
Qed.

Lemma failed_calls_write_nothing_witness :
  (createMeditationScript
     (CreateScript.mk "Again" None None None None None None None None None)
     (mkHost (Some Sample.alice) 1000 "s-a") Sample.db
   = (Err ConstraintError, Sample.db)
   /\ Sample.db = Sample.db)
  /\ (upsertMeditationScriptSection
        (UpsertSection.mk (Some "t-b") "s-a" 1 None None "Hello." None)
        Sample.host_alice Sample.db
      = (Err section_forbidden, Sample.db)
      /\ Sample.db = Sample.db)
  /\ (upsertMeditationScriptSection
        (UpsertSection.mk None "s-a" 1 None None "Hello." None)
        (mkHost (Some Sample.alice) 1000 "t-1") Sample.db
      = (Err ConstraintError, Sample.db)
      /\ Sample.db = Sample.db).
Proof.
  split; [|split]; (split; [reflexivity|]).
  - destruct (failed_calls_write_nothing (mkHost (Some Sample.alice) 1000 "s-a")
                Sample.db) as (H & _).
    eapply (H (CreateScript.mk "Again" None None None None None None None None None)
              ConstraintError).
    reflexivity.
  - destruct (failed_calls_write_nothing Sample.host_alice Sample.db)
      as (_ & _ & _ & _ & H & _).
    eapply (H (UpsertSection.mk (Some "t-b") "s-a" 1 None None "Hello." None)
              section_forbidden).
    reflexivity.
  - destruct (failed_calls_write_nothing (mkHost (Some Sample.alice) 1000 "t-1")
                Sample.db) as (_ & _ & _ & _ & H & _).
    eapply (H (UpsertSection.mk None "s-a" 1 None None "Hello." None)
              ConstraintError).
    reflexivity.
Defined.



(** ** getOwnedScript *)


(** ** The store invariant is kept by every action *)

Lemma insert_script_well_formed (r : S.row) (db : Db) :
  well_formed db -> well_formed (snd (insert_script r db)).
Proof.
  intros (Hs & Ht & Hfk). unfold insert_script.
  destruct (existsb _ db.(scripts)) eqn:He; simpl; [now repeat split|].
  split; [|split]; simpl.
  - apply primary_key_snoc; [exact Hs|]. now apply not_in_fresh.
  - exact Ht.
  - intros t Hin. simpl in *. rewrite map_app. apply in_or_app. left. now apply Hfk.
Qed.

Lemma insert_section_well_formed (r : T.row) (db : Db) :
  In r.(T.scriptId) (map S.id db.(scripts)) ->
  well_formed db -> well_formed (snd (insert_section r db)).
Proof.
  intros Hr (Hs & Ht & Hfk). unfold insert_section.
  destruct (existsb _ db.(sections)) eqn:He; simpl; [now repeat split|].
  split; [|split]; simpl.
  - exact Hs.
  - apply primary_key_snoc; [exact Ht|]. now apply not_in_fresh.
  - intros t Hin. simpl in *. apply in_app_or in Hin.
    destruct Hin as [Hin|[<-|[]]]; auto.
Qed.

Lemma update_scripts_well_formed updates cond (db : Db) :
  well_formed db -> well_formed (snd (update_scripts updates cond db)).
Proof.
  intros (Hs & Ht & Hfk). unfold update_scripts. simpl.
  assert (map S.id (map (fun r => if cond r then set_script updates r else r)
                      db.(scripts)) = map S.id db.(scripts)) as E.
  { rewrite map_map. apply map_ext. intros r.
    destruct (cond r); [apply set_script_id|reflexivity]. }
  split; [|split]; simpl.
  - unfold primary_key. now rewrite E.
  - exact Ht.
  - intros t Hin. simpl. rewrite E. now apply Hfk.
Qed.

Lemma update_sections_well_formed updates cond (db : Db) :
  well_formed db -> well_formed (snd (update_sections updates cond db)).
Proof.
  intros (Hs & Ht & Hfk). unfold update_sections. simpl.
  split; [|split]; simpl.
  - exact Hs.
  - unfold primary_key. rewrite map_map.
    erewrite map_ext; [exact Ht|].
    intros r. simpl. destruct (cond r); [apply set_section_keys|reflexivity].
  - intros t Hin. simpl in *. apply in_map_iff in Hin.
    destruct Hin as (r & <- & Hr).
    destruct (cond r); [|now apply Hfk].
    destruct (set_section_keys updates r) as [_ ->]. now apply Hfk.
Qed.

Lemma delete_sections_well_formed cond (db : Db) :
  well_formed db -> well_formed (snd (delete_sections cond db)).
Proof.
  intros (Hs & Ht & Hfk). unfold delete_sections. simpl.
  split; [|split]; simpl.
  - exact Hs.
  - now apply primary_key_filter.
  - intros t Hin. simpl in *. apply filter_In in Hin. now apply Hfk.
Qed.

Lemma empty_store_well_formed : well_formed (mkDb [] []).
Proof.
  split; [|split]; simpl; try constructor. intros t [].
Qed.

Lemma sample_well_formed : well_formed Sample.db.
Proof.
  split; [exact sample_scripts_key|].
  split; [exact sample_sections_key|exact sample_references].
Qed.

(** X4.  Whatever the payload, the caller and the outcome, each of the six
    actions takes a well-formed store (unique script ids, unique section ids,
    every section under an existing script) to a well-formed store; the two
    reading actions leave the store as it was. *)
Theorem actions_keep_well_formed (host : Host) (db : Db) :
  well_formed db ->
  (forall i, well_formed (snd (createMeditationScript i host db)))
  /\ (forall i, well_formed (snd (updateMeditationScript i host db)))
  /\ (forall i, snd (listMeditationScripts i host db) = db)
  /\ (forall i, snd (getMeditationScriptWithSections i host db) = db)
  /\ (forall i, well_formed (snd (upsertMeditationScriptSection i host db)))
  /\ (forall i, well_formed (snd (deleteMeditationScriptSection i host db))).
Proof.
  intros Hwf. split; [|split; [|split; [|split; [|split]]]]; intros i.
  - unfold createMeditationScript, defineAction.
    destruct (CreateScript.schema i) as [p|]; [|exact Hwf].
    unfold CreateScript.handler, requireUser.
    destruct host.(locals_user) as [user|]; [|exact Hwf].
    cbv beta iota delta [bind ret throw].
    match goal with
    | |- context [insert_script ?r db] =>
        pose proof (insert_script_well_formed r db Hwf) as H;
        destruct (insert_script r db) as [[[]|e] db1]; exact H
    end.
  - unfold updateMeditationScript, defineAction.
    destruct (UpdateScript.schema i) as [p|]; [|exact Hwf].
    unfold UpdateScript.handler, requireUser.
    destruct host.(locals_user) as [user|]; [|exact Hwf].
    cbv beta iota delta [bind ret throw].
    read_store; [|exact Hwf].
    now apply update_scripts_well_formed.
  - unfold listMeditationScripts, defineAction.
    destruct (ListScripts.schema i) as [p|]; [|reflexivity].
    unfold ListScripts.handler, requireUser.
    destruct host.(locals_user) as [user|]; [|reflexivity].
    cbv beta iota delta [bind ret throw].
    read_store; reflexivity.
  - unfold getMeditationScriptWithSections, defineAction. simpl.
    unfold GetScript.handler, requireUser.
    destruct host.(locals_user) as [user|]; [|reflexivity].
    cbv beta iota delta [bind ret throw].
    read_store; [|reflexivity].
    read_store; reflexivity.
  - unfold upsertMeditationScriptSection, defineAction.
    destruct (UpsertSection.schema i) as [p|]; [|exact Hwf].
    unfold UpsertSection.handler, requireUser.
    destruct host.(locals_user) as [user|]; [|exact Hwf].
    cbv beta iota delta [bind ret throw].
    read_store; [|exact Hwf].
    apply getOwnedScript_inv in Hg. destruct Hg as (_ & Hin & _).
    destruct (if_truthy p.(UpsertSection.id)) as [k|].
    + read_store; try exact Hwf.
      destruct (negb _); [exact Hwf|].
      now apply update_sections_well_formed.
    + match goal with
      | |- context [insert_section ?r db] =>
          assert (well_formed (snd (insert_section r db))) as H
            by (apply insert_section_well_formed;
                [cbn [T.scriptId]; now apply in_map|exact Hwf]);
          destruct (insert_section r db) as [[[]|e] db1]; exact H
      end.
  - unfold deleteMeditationScriptSection, defineAction. simpl.
    unfold DeleteSection.handler, requireUser.
    destruct host.(locals_user) as [user|]; [|exact Hwf].
    cbv beta iota delta [bind ret throw].
    read_store; try exact Hwf.
    read_store; [|exact Hwf].
    now apply delete_sections_well_formed.
Qed.

Lemma actions_keep_well_formed_witness :
  (forall i, well_formed (snd (createMeditationScript i Sample.host_alice Sample.db)))
  /\ (forall i, well_formed (snd (updateMeditationScript i Sample.host_alice Sample.db)))
  /\ (forall i, snd (listMeditationScripts i Sample.host_alice Sample.db) = Sample.db)
  /\ (forall i, snd (getMeditationScriptWithSections i Sample.host_alice Sample.db)
                = Sample.db)
  /\ (forall i, well_formed
                  (snd (upsertMeditationScriptSection i Sample.host_alice Sample.db)))
  /\ (forall i, well_formed
                  (snd (deleteMeditationScriptSection i Sample.host_alice Sample.db))).
Proof.
  apply (actions_keep_well_formed Sample.host_alice Sample.db).
  split; [|split].
  - unfold primary_key. simpl. repeat constructor; simpl; intuition discriminate.
  - unfold primary_key. simpl. repeat constructor; simpl; intuition discriminate.
  - intros t H. simpl in H. simpl. intuition (subst; simpl; tauto).
Defined.

(** ** Other users' rows are never written *)

Lemma owns_owned (uid : string) (db : Db) (s : S.row) (sid : string) :
  In s db.(scripts) -> owned_by sid uid s -> owns uid db sid = true.
Proof.
  intros Hin Hown. unfold owns. apply existsb_exists. exists s.
  split; [exact Hin|]. now apply owner_condition.
Qed.

Lemma insert_script_foreign (uid : string) (r : S.row) (db : Db) :
  r.(S.userId) = uid -> well_formed db ->
  foreign_scripts uid (snd (insert_script r db)) = foreign_scripts uid db
  /\ foreign_sections uid (snd (insert_script r db)) = foreign_sections uid db.
Proof.
  intros Hr (_ & _ & Hfk). unfold insert_script.
  destruct (existsb _ db.(scripts)) eqn:He; simpl; [split; reflexivity|].
  apply not_in_fresh in He. split.
  - unfold foreign_scripts. cbn [scripts]. rewrite filter_app. simpl.
    rewrite Hr, String.eqb_refl. simpl. apply app_nil_r.
  - unfold foreign_sections. cbn [sections]. apply filter_ext_in.
    intros t Ht. f_equal. unfold owns. cbn [scripts].
    rewrite existsb_app. simpl.
    destruct (String.eqb_spec r.(S.id) t.(T.scriptId)) as [E|_].
    + exfalso. apply He. rewrite E. now apply Hfk.
    + simpl. now rewrite !orb_false_r.
Qed.

Lemma update_scripts_foreign (uid : string) updates cond (db : Db) :
  (forall s, cond s = true -> s.(S.userId) = uid) ->
  (forall s, (set_script updates s).(S.userId) = s.(S.userId)) ->
  foreign_scripts uid (snd (update_scripts updates cond db)) = foreign_scripts uid db
  /\ foreign_sections uid (snd (update_scripts updates cond db))
     = foreign_sections uid db.
Proof.
  intros Hc Hu. unfold update_scripts. cbn [snd]. split.
  - unfold foreign_scripts. cbn [scripts]. apply filter_map_fixed.
    + intros x _. destruct (cond x); [now rewrite Hu|reflexivity].
    + intros x _ Hx. destruct (cond x) eqn:E; [|reflexivity].
      rewrite (Hc x E), String.eqb_refl in Hx. discriminate.
  - unfold foreign_sections. cbn [sections]. apply filter_ext.
    intros t. f_equal. unfold owns. cbn [scripts]. apply existsb_map_same.
    intros x. destruct (cond x); [|reflexivity].
    now rewrite set_script_id, Hu.
Qed.

Lemma insert_section_foreign (uid : string) (r : T.row) (db : Db) :
  owns uid db r.(T.scriptId) = true ->
  foreign_scripts uid (snd (insert_section r db)) = foreign_scripts uid db
  /\ foreign_sections uid (snd (insert_section r db)) = foreign_sections uid db.
Proof.
  intros Ho. unfold insert_section.
  destruct (existsb _ db.(sections)); simpl; [split; reflexivity|].
  split; [reflexivity|].
  unfold foreign_sections, owns in *. cbn [scripts sections].
  rewrite filter_app. simpl. rewrite Ho. simpl. apply app_nil_r.
Qed.

Lemma update_sections_foreign (uid : string) updates cond (db : Db) :
  (forall t, In t db.(sections) -> cond t = true -> owns uid db t.(T.scriptId) = true) ->
  foreign_scripts uid (snd (update_sections updates cond db)) = foreign_scripts uid db
  /\ foreign_sections uid (snd (update_sections updates cond db))
     = foreign_sections uid db.
Proof.
  intros Hc. unfold update_sections. cbn [snd]. split; [reflexivity|].
  unfold foreign_sections, owns in *. cbn [scripts sections].
  apply filter_map_fixed.
  - intros x _. destruct (cond x); [|reflexivity].
    now destruct (set_section_keys updates x) as [_ ->].
  - intros x Hx Hp. destruct (cond x) eqn:E; [|reflexivity].
    rewrite (Hc x Hx E) in Hp. discriminate.
Qed.

Lemma delete_sections_foreign (uid : string) cond (db : Db) :
  (forall t, In t db.(sections) -> cond t = true -> owns uid db t.(T.scriptId) = true) ->
  foreign_scripts uid (snd (delete_sections cond db)) = foreign_scripts uid db
  /\ foreign_sections uid (snd (delete_sections cond db)) = foreign_sections uid db.
Proof.
  intros Hc. unfold delete_sections. cbn [snd]. split; [reflexivity|].
  unfold foreign_sections, owns in *. cbn [scripts sections].
  symmetry. apply filter_through.
  intros x Hx Hp. destruct (cond x) eqn:E; [|reflexivity].
  rewrite (Hc x Hx E) in Hp. discriminate.
Qed.

Lemma by_id_is_found (db : Db) (k : string) (t0 : T.row) (l : list T.row) :
  primary_key T.id db.(sections) ->
  filter (fun t => (t.(T.id) =? k)%string) db.(sections) = t0 :: l ->
  forall t, In t db.(sections) -> (t.(T.id) =? k)%string = true -> t = t0.
Proof.
  intros Hk Hf t Ht E.
  assert (In t0 (filter (fun t => (t.(T.id) =? k)%string) db.(sections))) as H0
    by (rewrite Hf; now left).
  apply filter_In in H0. destruct H0 as [H0 E0].
  apply String.eqb_eq in E, E0.
  eapply primary_key_unique; eauto. congruence.
Qed.

(** X9.  No action writes to another user's rows.  In a well-formed store,
    whatever the payload and the outcome, a call by a signed-in user leaves
    the scripts of all other users, and the sections of every script that
    user does not own, exactly as they were, in the same order. *)
Theorem other_users_rows_untouched :
  forall (host : Host) (user : User) (db : Db),
    host.(locals_user) = Some user ->
    well_formed db ->
    let untouched (db' : Db) :=
      foreign_scripts user.(user_id) db' = foreign_scripts user.(user_id) db
      /\ foreign_sections user.(user_id) db' = foreign_sections user.(user_id) db in
    (forall i, untouched (snd (createMeditationScript i host db)))
    /\ (forall i, untouched (snd (updateMeditationScript i host db)))
    /\ (forall i, untouched (snd (upsertMeditationScriptSection i host db)))
    /\ (forall i, untouched (snd (deleteMeditationScriptSection i host db))).
Proof.
  intros host user db Hu Hwf untouched. unfold untouched.
  pose proof Hwf as (_ & Hkt & _).
  split; [|split; [|split]]; intros i.
  - unfold createMeditationScript, defineAction.
    destruct (CreateScript.schema i) as [p|]; [|split; reflexivity].
    unfold CreateScript.handler, requireUser. rewrite Hu.
    cbv beta iota delta [bind ret throw].
    match goal with
    | |- context [insert_script ?r db] =>
        pose proof (insert_script_foreign user.(user_id) r db eq_refl Hwf) as H;
        destruct (insert_script r db) as [[[]|e] db1]; exact H
    end.
  - unfold updateMeditationScript, defineAction.
    destruct (UpdateScript.schema i) as [p|]; [|split; reflexivity].
    unfold UpdateScript.handler, requireUser. rewrite Hu.
    cbv beta iota delta [bind ret throw].
    read_store; [|split; reflexivity].
    refine (update_scripts_foreign user.(user_id)
              (UpdateScript.updates p host.(new_Date))
              (fun r => (r.(S.id) =? p.(UpdateScript.id))%string
                        && (r.(S.userId) =? user.(user_id))%string) db _ _).
    + intros r Hr. apply andb_prop in Hr. destruct Hr as [_ Hr].
      now apply String.eqb_eq in Hr.
    + intros r. now destruct (set_script_updates p host.(new_Date) r) as (_ & -> & _).
  - unfold upsertMeditationScriptSection, defineAction.
    destruct (UpsertSection.schema i) as [p|]; [|split; reflexivity].
    unfold UpsertSection.handler, requireUser. rewrite Hu.
    cbv beta iota delta [bind ret throw].
    read_store; [|split; reflexivity].
    apply getOwnedScript_inv in Hg. destruct Hg as (_ & Hin & Hid & Hown & _).
    assert (owns user.(user_id) db s.(S.id) = true) as Ho.
    { apply (owns_owned _ _ s); [exact Hin|]. split; [reflexivity|exact Hown]. }
    destruct (if_truthy p.(UpsertSection.id)) as [k|].
    + read_store; try (split; reflexivity).
      apply select_sections_inv in Hsel. destruct Hsel as [Hf _]. symmetry in Hf.
      destruct (String.eqb_spec t.(T.scriptId) s.(S.id)) as [E|_]; cbn [negb];
        [|split; reflexivity].
      refine (update_sections_foreign user.(user_id) (UpsertSection.updates p)
                (fun t => (t.(T.id) =? k)%string) db _).
      intros t' Ht Ek.
      rewrite (by_id_is_found db k t l Hkt Hf t' Ht Ek). now rewrite E.
    + match goal with
      | |- context [insert_section ?r db] =>
          pose proof (insert_section_foreign user.(user_id) r db Ho) as H;
          destruct (insert_section r db) as [[[]|e] db1]; exact H
      end.
  - unfold deleteMeditationScriptSection, defineAction. simpl.
    unfold DeleteSection.handler, requireUser. rewrite Hu.
    cbv beta iota delta [bind ret throw].
    read_store; try (split; reflexivity).
    apply select_sections_inv in Hsel. destruct Hsel as [Hf _]. symmetry in Hf.
    read_store; [|split; reflexivity].
    apply getOwnedScript_inv in Hg. destruct Hg as (_ & Hin & Hid & Hown & _).
    refine (delete_sections_foreign user.(user_id)
              (fun t => (t.(T.id) =? i.(DeleteSection.id))%string) db _).
    intros t' Ht Ek.
    rewrite (by_id_is_found db _ t l Hkt Hf t' Ht Ek).
    apply (owns_owned _ _ s); [exact Hin|]. split; assumption.
Qed.

Lemma other_users_rows_untouched_witness :
  foreign_scripts "u-alice"
    (snd (deleteMeditationScriptSection (DeleteSection.mk "t-1")
            Sample.host_alice Sample.db))
  = [Sample.script_b]
  /\ foreign_sections "u-alice"
       (snd (deleteMeditationScriptSection (DeleteSection.mk "t-1")
               Sample.host_alice Sample.db))
     = [Sample.section_b1].
Proof.
  destruct (other_users_rows_untouched Sample.host_alice Sample.alice Sample.db eq_refl)
    as (_ & _ & _ & H).
  - split; [|split].
    + unfold primary_key. simpl. repeat constructor; simpl; intuition discriminate.
    + unfold primary_key. simpl. repeat constructor; simpl; intuition discriminate.
    + intros t Ht. simpl in Ht. simpl. intuition (subst; simpl; tauto).
  - exact (H (DeleteSection.mk "t-1")).
Defined.

(** ** Unowned scripts, readable rows *)

(** X14.  For an authenticated caller and a script that is absent or owned
    by another user, with unique script ids: updateMeditationScript,
    getMeditationScriptWithSections and upsertMeditationScriptSection, on a
    payload their schema accepts, fail with NOT_FOUND "Meditation script not
    found." and leave the store untouched, the same answer in both cases;
    deleteMeditationScriptSection does so too for a section under that script
    that holds safe integers. *)
Theorem unowned_script_is_not_found :
  forall (host : Host) (user : User) (db : Db) (sid : string),
    host.(locals_user) = Some user ->
    primary_key S.id db.(scripts) ->
    script_absent sid db \/ script_foreign sid user.(user_id) db ->
    (forall iu, UpdateScript.schema iu <> None -> iu.(UpdateScript.id) = sid ->
                updateMeditationScript iu host db = (Err script_not_found, db))
    /\ getMeditationScriptWithSections (GetScript.mk sid) host db
       = (Err script_not_found, db)
    /\ (forall isec, UpsertSection.schema isec <> None ->
                     isec.(UpsertSection.scriptId) = sid ->
                     upsertMeditationScriptSection isec host db
                     = (Err script_not_found, db))
    /\ (forall idel section,
          primary_key T.id db.(sections) ->
          In section db.(sections) -> section.(T.id) = idel.(DeleteSection.id) ->
          section.(T.scriptId) = sid -> decodable_section section = true ->
          deleteMeditationScriptSection idel host db = (Err script_not_found, db)).
Proof.
  intros host user db sid Hu Hks Hcase.
  assert (unowned sid user.(user_id) db) as Hun.
  { destruct Hcase; [now apply absent_unowned | now apply foreign_unowned]. }
  pose proof (getOwnedScript_unowned _ _ _ Hun) as Hg.
  split; [|split; [|split]].
  - intros iu Vu Eu. rewrite (update_run host user db iu Hu Vu), Eu, Hg. reflexivity.
  - rewrite (get_run host user db sid Hu), Hg. reflexivity.
  - intros isec Vs Es. rewrite (upsert_run host user db isec Hu Vs), Es, Hg. reflexivity.
  - intros idel section Hkt Hin Eid Epar Hd.
    rewrite (delete_run host user db idel Hu).
    unfold select_sections. rewrite (filter_key_unique T.id _ section _ Hkt Hin Eid).
    unfold decode. cbn [forallb]. rewrite Hd. cbn [andb ret].
    rewrite Epar, Hg. reflexivity.
Qed.

Lemma unowned_script_is_not_found_witness :
  updateMeditationScript
    (UpdateScript.mk "s-none" (Some "Mine now") None None None None None None None None
       None)
    Sample.host_alice Sample.db = (Err script_not_found, Sample.db)
  /\ getMeditationScriptWithSections (GetScript.mk "s-none") Sample.host_alice Sample.db
     = (Err script_not_found, Sample.db)
  /\ upsertMeditationScriptSection
       (UpsertSection.mk None "s-b" 1 None None "Hello." None)
       Sample.host_alice Sample.db = (Err script_not_found, Sample.db)
  /\ deleteMeditationScriptSection (DeleteSection.mk "t-b") Sample.host_alice Sample.db
     = (Err script_not_found, Sample.db).
Proof.
  destruct (unowned_script_is_not_found Sample.host_alice Sample.alice Sample.db "s-none"
              eq_refl sample_scripts_key) as (Hu & Hg & _).
  { left. intros s Hs. simpl in Hs. intuition (subst; discriminate). }
  destruct (unowned_script_is_not_found Sample.host_alice Sample.alice Sample.db "s-b"
              eq_refl sample_scripts_key) as (_ & _ & Hs & Hd).
  { right. exists Sample.script_b. simpl. intuition discriminate. }
  split; [|split; [exact Hg|split]].
  - apply Hu; [discriminate|reflexivity].
  - apply Hs; [discriminate|reflexivity].
  - apply (Hd (DeleteSection.mk "t-b") Sample.section_b1 sample_sections_key).
    + simpl. tauto.
    + reflexivity.
    + reflexivity.
    + reflexivity.
Defined.

(** ** Sections in order, readable rows *)

(** X15.  For an authenticated caller who owns the script with the given id,
    when the script row and the script's sections hold safe integers: the
    call succeeds with that script and a list of sections that holds exactly
    the rows of the sections table whose [scriptId] is the script's id (each
    as often as the table has it), is in ascending order of [orderIndex], and
    keeps rows of equal [orderIndex] in the order in which the table gave
    them. *)
Theorem getScriptWithSections_sorted_stable :
  forall (host : Host) (user : User) (db : Db) (sid : string) (s : S.row),
    host.(locals_user) = Some user ->
    primary_key S.id db.(scripts) ->
    In s db.(scripts) ->
    owned_by sid user.(user_id) s ->
    decodable_script s = true ->
    readable_sections_of sid db ->
    let fetched := filter (fun t => (t.(T.scriptId) =? sid)%string) db.(sections) in
    exists out,
      getMeditationScriptWithSections (GetScript.mk sid) host db
      = (Ok (mkSuccess true (GetScript.mkOut s out)), db)
      /\ Permutation out fetched
      /\ (forall t, In t out <-> In t db.(sections) /\ t.(T.scriptId) = sid)
      /\ StronglySorted (fun a b => a.(T.orderIndex) <= b.(T.orderIndex)) out
      /\ (forall k, filter (fun t => t.(T.orderIndex) =? k) out
                    = filter (fun t => t.(T.orderIndex) =? k) fetched).
Proof.
  intros host user db sid s Hu Hk Hin [Eid Eown] Hd Hread fetched.
  exists (sort (fun a b => a.(T.orderIndex) - b.(T.orderIndex)) fetched).
  split; [|split; [|split; [|split]]].
  - rewrite (get_run host user db sid Hu).
    rewrite (getOwnedScript_owned sid _ db s Hk Hin Eid Eown Hd).
    rewrite Eid. rewrite select_sections_readable; [reflexivity|].
    intros t Ht Hc. apply String.eqb_eq in Hc. now apply Hread.
  - apply (sort_perm T.orderIndex).
  - intros t. split.
    + intros H. apply (Permutation_in _ (sort_perm T.orderIndex fetched)) in H.
      apply filter_In in H. now rewrite String.eqb_eq in H.
    + intros [H E].
      apply (Permutation_in _ (Permutation_sym (sort_perm T.orderIndex fetched))).
      apply filter_In. now rewrite String.eqb_eq.
  - apply (sort_sorted T.orderIndex).
  - intros k. apply (sort_stable T.orderIndex).
Qed.

Lemma getScriptWithSections_sorted_stable_witness :
  getMeditationScriptWithSections (GetScript.mk "s-a") Sample.host_alice Sample.db
  = (Ok (mkSuccess true
           (GetScript.mkOut Sample.script_a
              [Sample.section_a2; Sample.section_a4; Sample.section_a3;
               Sample.section_a1])),
     Sample.db).
Proof.
  destruct (getScriptWithSections_sorted_stable Sample.host_alice Sample.alice
              Sample.db "s-a" Sample.script_a eq_refl sample_scripts_key)
    as (out & E & _).
  - simpl. tauto.
  - split; reflexivity.
  - reflexivity.
  - apply sample_readable_sections_of.
  - vm_compute in E. injection E as <-. reflexivity.
Defined.

(** ** A created script reads back, safe integers *)

(** X16.  For an authenticated caller, a payload the schema accepts whose
    [targetDurationMinutes], when given, is a safe integer, and a generated
    id that no script carries yet, in a store whose sections all refer to
    existing scripts: createMeditationScript succeeds and returns the
    generated id, and getMeditationScriptWithSections with that id, by the
    same caller on the store left behind, returns the script whose fields are
    those of the payload ([isFavorite] false when not given), whose [userId]
    is the caller's id and whose [createdAt] and [updatedAt] are both the
    time of the create call, together with no sections. *)
Theorem create_then_get :
  forall (host host' : Host) (user : User) (db : Db) (i : CreateScript.input),
    host.(locals_user) = Some user ->
    host'.(locals_user) = Some user ->
    CreateScript.schema i <> None ->
    safe_optional i.(CreateScript.targetDurationMinutes) = true ->
    ~ In host.(randomUUID) (map S.id db.(scripts)) ->
    sections_reference_scripts db ->
    exists db',
      createMeditationScript i host db = (Ok (mkSuccess true host.(randomUUID)), db')
      /\ getMeditationScriptWithSections (GetScript.mk host.(randomUUID)) host' db'
         = (Ok (mkSuccess true
                  (GetScript.mkOut
                     (S.mk host.(randomUUID) user.(user_id)
                        i.(CreateScript.title) i.(CreateScript.description)
                        i.(CreateScript.meditationType) i.(CreateScript.focusArea)
                        i.(CreateScript.difficulty) i.(CreateScript.language)
                        i.(CreateScript.targetDurationMinutes)
                        i.(CreateScript.fullScript) i.(CreateScript.notes)
                        (ListScripts.default false i.(CreateScript.isFavorite))
                        host.(new_Date) host.(new_Date))
                     [])),
            db').
Proof.
  intros host host' user db i Hu Hu' Hs Hsafe Hfresh Hfk.
  eexists. split.
  - rewrite (create_run host user db i Hu Hs).
    rewrite insert_script_fresh by exact Hfresh. reflexivity.
  - rewrite (get_run host' user _ _ Hu'). rewrite getOwnedScript_unfold.
    cbn [scripts]. rewrite filter_app. rewrite (filter_fresh S.id _ _ _ Hfresh).
    cbn [filter app S.id S.userId]. rewrite !String.eqb_refl. cbn [andb].
    unfold decode at 1. cbn [forallb]. unfold decodable_script at 1.
    cbn [S.targetDurationMinutes]. rewrite Hsafe. cbn [andb ret S.id].
    unfold select_sections. cbn [sections].
    match goal with
    | |- context [filter ?p ?l] => assert (filter p l = []) as ->; [|reflexivity]
    end.
    apply filter_nil_iff. intros t Ht. apply String.eqb_neq. intros E.
    apply Hfresh. rewrite <- E. now apply Hfk.
Qed.

Lemma create_then_get_witness :
  exists db',
    createMeditationScript
      (CreateScript.mk "Morning Calm" None None (Some "stress") None None (Some 5)
         None None None)
      Sample.host_alice Sample.db = (Ok (mkSuccess true "uuid-1"), db')
    /\ getMeditationScriptWithSections (GetScript.mk "uuid-1") Sample.host_alice_later db'
       = (Ok (mkSuccess true
                (GetScript.mkOut
                   (S.mk "uuid-1" "u-alice" "Morning Calm" None None (Some "stress")
                      None None (Some 5) None None false 1000 1000)
                   [])),
          db').
Proof.
  apply (create_then_get Sample.host_alice Sample.host_alice_later Sample.alice
           Sample.db
           (CreateScript.mk "Morning Calm" None None (Some "stress") None None (Some 5)
              None None None)).
  - reflexivity.
  - reflexivity.
  - discriminate.
  - reflexivity.
  - simpl. intuition discriminate.
  - exact sample_references.
Defined.

(** ** Deleting a readable section *)

(** X17.  For an authenticated caller, with unique section ids: with no
    section of the given id the call fails NOT_FOUND; with a section of that
    id, holding safe integers, whose parent script the caller does not own
    it fails NOT_FOUND as well (the script's NOT_FOUND, not FORBIDDEN) and
    the store, the section included, is left as it was.  With a section of
    that id, holding safe integers, under a script the caller owns whose row
    holds safe integers, the call returns the given id and leaves the scripts
    table as it was and the sections table without the rows of that id and
    with all its other rows, in order; a further call with the same id on
    the store left behind fails NOT_FOUND. *)
Theorem deleteSection_outcomes :
  forall (host host' : Host) (user user' : User) (db : Db) (i : DeleteSection.input),
    host.(locals_user) = Some user ->
    host'.(locals_user) = Some user' ->
    primary_key T.id db.(sections) ->
    ((forall t, In t db.(sections) -> t.(T.id) <> i.(DeleteSection.id)) ->
     deleteMeditationScriptSection i host db = (Err section_not_found, db))
    /\ (forall t, In t db.(sections) -> t.(T.id) = i.(DeleteSection.id) ->
                  decodable_section t = true ->
                  unowned t.(T.scriptId) user.(user_id) db ->
        deleteMeditationScriptSection i host db = (Err script_not_found, db))
    /\ (forall t s, In t db.(sections) -> t.(T.id) = i.(DeleteSection.id) ->
                    decodable_section t = true ->
                    In s db.(scripts) ->
                    owned_by t.(T.scriptId) user.(user_id) s ->
                    readable_script t.(T.scriptId) user.(user_id) db ->
        exists db',
          deleteMeditationScriptSection i host db
          = (Ok (mkSuccess true i.(DeleteSection.id)), db')
          /\ db'.(scripts) = db.(scripts)
          /\ db'.(sections)
             = filter (fun r => negb (r.(T.id) =? i.(DeleteSection.id))%string)
                 db.(sections)
          /\ (forall r, In r db'.(sections)
                        <-> In r db.(sections) /\ r.(T.id) <> i.(DeleteSection.id))
          /\ deleteMeditationScriptSection i host' db' = (Err section_not_found, db')).
Proof.
  intros host host' user user' db i Hu Hu' Hk. split; [|split].
  - intros Hnone. rewrite (delete_run host user db i Hu). unfold select_sections.
    replace (filter (fun t => (t.(T.id) =? i.(DeleteSection.id))%string) db.(sections))
      with (@nil T.row); [reflexivity|].
    symmetry. apply filter_nil_iff. intros t Ht. apply String.eqb_neq. now apply Hnone.
  - intros t Ht Et Hd Hun. rewrite (delete_run host user db i Hu).
    unfold select_sections. rewrite (filter_key_unique T.id _ t _ Hk Ht Et).
    unfold decode. cbn [forallb]. rewrite Hd. cbn [andb ret].
    now rewrite (getOwnedScript_unowned _ _ _ Hun).
  - intros t s Ht Et Hd Hs Hown Hread.
    destruct (getOwnedScript_exists _ _ _ _ Hs Hown Hread) as (s' & Hg & _).
    eexists. split.
    { rewrite (delete_run host user db i Hu).
      unfold select_sections. rewrite (filter_key_unique T.id _ t _ Hk Ht Et).
      unfold decode. cbn [forallb]. rewrite Hd. cbn [andb ret].
      rewrite Hg. reflexivity. }
    cbn [scripts sections].
    split; [reflexivity|]. split; [reflexivity|]. split.
    + intros r. rewrite filter_In, negb_true_iff, String.eqb_neq. reflexivity.
    + rewrite (delete_run host' user' _ i Hu'). unfold select_sections.
      cbn [scripts sections].
      match goal with
      | |- context [filter ?p (filter ?q ?l)] =>
          assert (filter p (filter q l) = []) as ->; [|reflexivity]
      end.
      apply filter_nil_iff. intros r Hr.
      apply filter_In in Hr. destruct Hr as [_ Hr].
      now apply negb_true_iff in Hr.
Qed.

Lemma deleteSection_outcomes_witness :
  deleteMeditationScriptSection (DeleteSection.mk "t-9") Sample.host_alice Sample.db
  = (Err section_not_found, Sample.db)
  /\ deleteMeditationScriptSection (DeleteSection.mk "t-b") Sample.host_alice Sample.db
     = (Err script_not_found, Sample.db)
  /\ exists db',
       deleteMeditationScriptSection (DeleteSection.mk "t-3") Sample.host_alice Sample.db
       = (Ok (mkSuccess true "t-3"), db')
       /\ db'.(sections)
          = [Sample.section_a1; Sample.section_a2; Sample.section_b1;
             Sample.section_a4; Sample.section_a21]
       /\ deleteMeditationScriptSection (DeleteSection.mk "t-3")
            Sample.host_alice_later db' = (Err section_not_found, db').
Proof.
  split; [|split].
  - apply (deleteSection_outcomes Sample.host_alice Sample.host_alice_later
             Sample.alice Sample.alice Sample.db (DeleteSection.mk "t-9")
             eq_refl eq_refl sample_sections_key).
    simpl. intuition (subst; discriminate).
  - apply (deleteSection_outcomes Sample.host_alice Sample.host_alice_later
             Sample.alice Sample.alice Sample.db (DeleteSection.mk "t-b")
             eq_refl eq_refl sample_sections_key) with (t := Sample.section_b1).
    + simpl. tauto.
    + reflexivity.
    + reflexivity.
    + intros s Hs E. simpl in Hs. intuition (subst; discriminate).
  - destruct (deleteSection_outcomes Sample.host_alice Sample.host_alice_later
                Sample.alice Sample.alice Sample.db (DeleteSection.mk "t-3")
                eq_refl eq_refl sample_sections_key) as (_ & _ & H).
    destruct (H Sample.section_a3 Sample.script_a) as (db' & E & _ & Hsec & _ & Hagain).
    + simpl. tauto.
    + reflexivity.
    + reflexivity.
    + simpl. tauto.
    + split; reflexivity.
    + apply sample_readable_script.
    + exists db'. split; [exact E|]. split; [|exact Hagain].
      rewrite Hsec. reflexivity.
Defined.

(** ** Creating a section *)

Lemma upsert_create_run (host : Host) (user : User) (db : Db)
  (i : UpsertSection.input) (s : S.row) :
  host.(locals_user) = Some user ->
  UpsertSection.schema i <> None ->
  if_truthy i.(UpsertSection.id) = None ->
  getOwnedScript i.(UpsertSection.scriptId) user.(user_id) db = (Ok s, db) ->
  ~ In host.(randomUUID) (map T.id db.(sections)) ->
  upsertMeditationScriptSection i host db
  = (Ok (mkSuccess true host.(randomUUID)),
     mkDb db.(scripts)
       (db.(sections)
        ++ [T.mk host.(randomUUID) i.(UpsertSection.scriptId)
              i.(UpsertSection.orderIndex) i.(UpsertSection.sectionType)
              i.(UpsertSection.title) i.(UpsertSection.body)
              i.(UpsertSection.suggestedDurationMinutes) host.(new_Date)])).
Proof.
  intros Hu Hs Hid Hg Hfresh.
  rewrite (upsert_run host user db i Hu Hs), Hg, Hid.
  destruct (getOwnedScript_inv _ _ _ _ _ Hg) as (_ & _ & Es & _).
  rewrite insert_section_fresh by exact Hfresh. now rewrite Es.
Qed.

Lemma payload_section_decodable (i : UpsertSection.input) (k sid : string) (now : Date) :
  safe_integer i.(UpsertSection.orderIndex) = true ->
  safe_optional i.(UpsertSection.suggestedDurationMinutes) = true ->
  decodable_section
    (T.mk k sid i.(UpsertSection.orderIndex) i.(UpsertSection.sectionType)
       i.(UpsertSection.title) i.(UpsertSection.body)
       i.(UpsertSection.suggestedDurationMinutes) now) = true.
Proof.
  intros H1 H2. unfold decodable_section. cbn. now rewrite H1, H2.
Qed.

(** X5.  A section created by an upsert call without [id] (or with the empty
    text as [id]) reads back: for a caller who owns the named script, rows of
    the script and of its sections that hold safe integers, a payload the
    schema accepts whose [orderIndex] and [suggestedDurationMinutes] are safe
    integers, and a generated id no section carries yet, the call returns the
    generated id and appends one row, made of the payload's fields, the named
    script's id and the time of the call, to the sections table;
    getMeditationScriptWithSections on that script then returns this row
    together with exactly the sections the script had. *)
Theorem upsertSection_create_then_get :
  forall (host host' : Host) (user : User) (db : Db)
         (i : UpsertSection.input) (s : S.row),
    host.(locals_user) = Some user ->
    host'.(locals_user) = Some user ->
    UpsertSection.schema i <> None ->
    if_truthy i.(UpsertSection.id) = None ->
    safe_integer i.(UpsertSection.orderIndex) = true ->
    safe_optional i.(UpsertSection.suggestedDurationMinutes) = true ->
    primary_key S.id db.(scripts) ->
    In s db.(scripts) ->
    owned_by i.(UpsertSection.scriptId) user.(user_id) s ->
    decodable_script s = true ->
    readable_sections_of i.(UpsertSection.scriptId) db ->
    ~ In host.(randomUUID) (map T.id db.(sections)) ->
    let new := T.mk host.(randomUUID) i.(UpsertSection.scriptId)
                 i.(UpsertSection.orderIndex) i.(UpsertSection.sectionType)
                 i.(UpsertSection.title) i.(UpsertSection.body)
                 i.(UpsertSection.suggestedDurationMinutes) host.(new_Date) in
    exists db' out,
      upsertMeditationScriptSection i host db
      = (Ok (mkSuccess true host.(randomUUID)), db')
      /\ db'.(scripts) = db.(scripts)
      /\ db'.(sections) = db.(sections) ++ [new]
      /\ getMeditationScriptWithSections (GetScript.mk i.(UpsertSection.scriptId))
           host' db'
         = (Ok (mkSuccess true (GetScript.mkOut s out)), db')
      /\ Permutation out
           (new :: filter (fun t => (t.(T.scriptId) =? i.(UpsertSection.scriptId))%string)
                     db.(sections)).
Proof.
  intros host host' user db i s Hu Hu' Hs Hid Ho Hsd Hk Hin [Eid Eown] Hd Hread
    Hfresh new.
  pose proof (getOwnedScript_owned _ _ db s Hk Hin Eid Eown Hd) as Hg.
  eexists. eexists. split; [|split; [|split; [|split]]].
  - exact (upsert_create_run host user db i s Hu Hs Hid Hg Hfresh).
  - reflexivity.
  - reflexivity.
  - rewrite (get_run host' user _ _ Hu').
    rewrite (getOwnedScript_owned _ _ (mkDb db.(scripts) _) s Hk Hin Eid Eown Hd).
    rewrite Eid. rewrite select_sections_readable; [reflexivity|].
    cbn [sections]. intros t Ht Hc. apply String.eqb_eq in Hc.
    apply in_app_or in Ht. destruct Ht as [Ht|[<-|[]]].
    + now apply Hread.
    + now apply payload_section_decodable.
  - cbn [sections]. rewrite (sort_perm T.orderIndex).
    rewrite filter_app. simpl. rewrite String.eqb_refl.
    rewrite <- Permutation_cons_append. reflexivity.
Qed.

Lemma upsertSection_create_then_get_witness :
  exists db' out,
    upsertMeditationScriptSection
      (UpsertSection.mk None "s-a2" 1 None None "Lie down." None)
      Sample.host_alice Sample.db = (Ok (mkSuccess true "uuid-1"), db')
    /\ db'.(scripts) = Sample.db.(scripts)
    /\ db'.(sections)
       = Sample.db.(sections) ++ [T.mk "uuid-1" "s-a2" 1 None None "Lie down." None 1000]
    /\ getMeditationScriptWithSections (GetScript.mk "s-a2") Sample.host_alice_later db'
       = (Ok (mkSuccess true (GetScript.mkOut Sample.script_a2 out)), db')
    /\ Permutation out
         [T.mk "uuid-1" "s-a2" 1 None None "Lie down." None 1000; Sample.section_a21].
Proof.
  apply (upsertSection_create_then_get Sample.host_alice Sample.host_alice_later
           Sample.alice Sample.db
           (UpsertSection.mk None "s-a2" 1 None None "Lie down." None)
           Sample.script_a2).
  - reflexivity.
  - reflexivity.
  - discriminate.
  - reflexivity.
  - reflexivity.
  - reflexivity.
  - unfold primary_key. simpl. repeat constructor; simpl; intuition discriminate.
  - simpl. tauto.
  - split; reflexivity.
  - reflexivity.
  - intros t H _. simpl in H. intuition (subst; reflexivity).
  - simpl. intuition discriminate.
Defined.

(** X6.  Deleting a section right after creating it gives back the store as
    it was: for a caller whose named script resolves, a payload the schema
    accepts whose [orderIndex] and [suggestedDurationMinutes] are safe
    integers and a generated id no section carries yet, the upsert call
    without [id] succeeds, the delete call with the generated id succeeds and
    returns that id, and both tables are then exactly as they were before the
    section was created. *)
Theorem upsertSection_create_then_delete :
  forall (host host' : Host) (user : User) (db : Db)
         (i : UpsertSection.input) (s : S.row),
    host.(locals_user) = Some user ->
    host'.(locals_user) = Some user ->
    UpsertSection.schema i <> None ->
    if_truthy i.(UpsertSection.id) = None ->
    safe_integer i.(UpsertSection.orderIndex) = true ->
    safe_optional i.(UpsertSection.suggestedDurationMinutes) = true ->
    getOwnedScript i.(UpsertSection.scriptId) user.(user_id) db = (Ok s, db) ->
    ~ In host.(randomUUID) (map T.id db.(sections)) ->
    exists db',
      upsertMeditationScriptSection i host db
      = (Ok (mkSuccess true host.(randomUUID)), db')
      /\ deleteMeditationScriptSection (DeleteSection.mk host.(randomUUID)) host' db'
         = (Ok (mkSuccess true host.(randomUUID)), db).
Proof.
  intros host host' user db i s Hu Hu' Hs Hid Ho Hsd Hg Hfresh.
  eexists. split.
  - exact (upsert_create_run host user db i s Hu Hs Hid Hg Hfresh).
  - rewrite (delete_run host' user _ _ Hu'). cbn [DeleteSection.id].
    unfold select_sections. cbn [sections].
    match goal with
    | |- context [db.(sections) ++ [?r]] =>
        destruct (filter_snoc_fresh T.id db.(sections) r Hfresh) as [E1 E2];
        pose proof (payload_section_decodable i host.(randomUUID)
                      i.(UpsertSection.scriptId) host.(new_Date) Ho Hsd) as Hd
    end.
    cbn [T.id] in E1, E2. rewrite E1.
    unfold decode. cbn [forallb]. rewrite Hd. cbn [andb ret T.scriptId].
    match goal with
    | |- context [getOwnedScript ?a ?b ?d] =>
        rewrite (getOwnedScript_other_store a b db d (Ok s) eq_refl Hg)
    end.
    cbn [scripts sections]. rewrite E2. now destruct db.
Qed.

Lemma upsertSection_create_then_delete_witness :
  exists db',
    upsertMeditationScriptSection
      (UpsertSection.mk None "s-a2" 1 None None "Lie down." None)
      Sample.host_alice Sample.db = (Ok (mkSuccess true "uuid-1"), db')
    /\ deleteMeditationScriptSection (DeleteSection.mk "uuid-1")
         Sample.host_alice_later db'
       = (Ok (mkSuccess true "uuid-1"), Sample.db).
Proof.
  apply (upsertSection_create_then_delete Sample.host_alice Sample.host_alice_later
           Sample.alice Sample.db
           (UpsertSection.mk None "s-a2" 1 None None "Lie down." None)
           Sample.script_a2).
  - reflexivity.
  - reflexivity.
  - discriminate.
  - reflexivity.
  - reflexivity.
  - reflexivity.
  - reflexivity.
  - simpl. intuition discriminate.
Defined.

(** ** Updating a script *)

Lemma set_script_target (i : UpdateScript.input) (uid : string) (now : Date) (r : S.row) :
  update_target i uid (set_script (UpdateScript.updates i now) r) = update_target i uid r.
Proof.
  unfold update_target.
  destruct (set_script_updates i now r) as (-> & -> & _). reflexivity.
Qed.

Lemma set_script_decodable (i : UpdateScript.input) (now : Date) (r : S.row) :
  safe_optional i.(UpdateScript.targetDurationMinutes) = true ->
  decodable_script r = true ->
  decodable_script (set_script (UpdateScript.updates i now) r) = true.
Proof.
  intros Hi Hr. unfold decodable_script in *.
  destruct (set_script_updates i now r) as (_ & _ & _ & _ & _ & _ & _ & _ & _ & E & _).
  rewrite E. destruct i.(UpdateScript.targetDurationMinutes); assumption.
Qed.

(** X7.  An update reads back: for a caller who owns the script, with unique
    script ids, rows of the script and its sections that hold safe integers,
    and a payload the schema accepts whose [targetDurationMinutes], when
    given, is a safe integer, updateMeditationScript succeeds and
    getMeditationScriptWithSections then returns the row with the given
    fields replaced, the other fields kept and [updatedAt] set to the time of
    the update, together with the very sections it returned before the
    update. *)
Theorem updateScript_then_get :
  forall (host host' : Host) (user : User) (db : Db)
         (i : UpdateScript.input) (s : S.row),
    host.(locals_user) = Some user ->
    host'.(locals_user) = Some user ->
    UpdateScript.schema i <> None ->
    safe_optional i.(UpdateScript.targetDurationMinutes) = true ->
    primary_key S.id db.(scripts) ->
    In s db.(scripts) ->
    owned_by i.(UpdateScript.id) user.(user_id) s ->
    decodable_script s = true ->
    readable_sections_of i.(UpdateScript.id) db ->
    exists db' s' out,
      updateMeditationScript i host db = (Ok (mkSuccess true i.(UpdateScript.id)), db')
      /\ updated_script i host.(new_Date) s s'
      /\ getMeditationScriptWithSections (GetScript.mk i.(UpdateScript.id)) host' db
         = (Ok (mkSuccess true (GetScript.mkOut s out)), db)
      /\ getMeditationScriptWithSections (GetScript.mk i.(UpdateScript.id)) host' db'
         = (Ok (mkSuccess true (GetScript.mkOut s' out)), db').
Proof.
  intros host host' user db i s Hu Hu' Hs Hsafe Hk Hin [Eid Eown] Hd Hread.
  set (f := fun r => if update_target i user.(user_id) r
                     then set_script (UpdateScript.updates i host.(new_Date)) r
                     else r).
  assert (update_target i user.(user_id) s = true) as Ht.
  { unfold update_target. now rewrite Eid, Eown, !String.eqb_refl. }
  assert (forall r, (f r).(S.id) = r.(S.id)) as Hfid.
  { intros r. unfold f. destruct (update_target _ _ r); [apply set_script_id|reflexivity]. }
  pose proof (set_script_updates i host.(new_Date) s) as Hupd.
  assert (forall d : Db, d.(sections) = db.(sections) -> forall sid', sid' = i.(UpdateScript.id) ->
            select_sections (fun t => (t.(T.scriptId) =? sid')%string) d
            = (Ok (filter (fun t => (t.(T.scriptId) =? i.(UpdateScript.id))%string)
                     db.(sections)), d)) as Hsec.
  { intros d Ed sid' ->. rewrite select_sections_readable; [now rewrite Ed|].
    rewrite Ed. intros t Ht' Hc. apply String.eqb_eq in Hc. now apply Hread. }
  exists (mkDb (map f db.(scripts)) db.(sections)),
         (set_script (UpdateScript.updates i host.(new_Date)) s).
  eexists. split; [|split; [exact Hupd|split]].
  - rewrite (update_run host user db i Hu Hs).
    rewrite (getOwnedScript_owned _ _ db s Hk Hin Eid Eown Hd). reflexivity.
  - rewrite (get_run host' user db _ Hu').
    rewrite (getOwnedScript_owned _ _ db s Hk Hin Eid Eown Hd).
    rewrite (Hsec db eq_refl _ Eid). reflexivity.
  - rewrite (get_run host' user _ _ Hu').
    destruct Hupd as (Eid' & Eown' & _).
    rewrite (getOwnedScript_owned _ _ (mkDb (map f db.(scripts)) db.(sections))
               (set_script (UpdateScript.updates i host.(new_Date)) s)).
    + rewrite (Hsec (mkDb (map f db.(scripts)) db.(sections)) eq_refl _
                 (eq_trans Eid' Eid)).
      reflexivity.
    + unfold primary_key. cbn [scripts]. rewrite map_map.
      erewrite map_ext; [exact Hk|]. exact Hfid.
    + cbn [scripts]. apply in_map_iff. exists s. split; [|exact Hin].
      unfold f. now rewrite Ht.
    + congruence.
    + congruence.
    + now apply set_script_decodable.
Qed.

Lemma updateScript_then_get_witness :
  exists db' s' out,
    updateMeditationScript
      (UpdateScript.mk "s-a2" None None None (Some "rest") None None None None None None)
      Sample.host_alice Sample.db = (Ok (mkSuccess true "s-a2"), db')
    /\ updated_script
         (UpdateScript.mk "s-a2" None None None (Some "rest") None None None None None None)
         1000 Sample.script_a2 s'
    /\ getMeditationScriptWithSections (GetScript.mk "s-a2") Sample.host_alice_later
         Sample.db
       = (Ok (mkSuccess true (GetScript.mkOut Sample.script_a2 out)), Sample.db)
    /\ getMeditationScriptWithSections (GetScript.mk "s-a2") Sample.host_alice_later db'
       = (Ok (mkSuccess true (GetScript.mkOut s' out)), db').
Proof.
  apply (updateScript_then_get Sample.host_alice Sample.host_alice_later Sample.alice
           Sample.db
           (UpdateScript.mk "s-a2" None None None (Some "rest") None None None None
              None None)
           Sample.script_a2).
  - reflexivity.
  - reflexivity.
  - discriminate.
  - reflexivity.
  - unfold primary_key. simpl. repeat constructor; simpl; intuition discriminate.
  - simpl. tauto.
  - split; reflexivity.
  - reflexivity.
  - intros t H _. simpl in H. intuition (subst; reflexivity).
Defined.

(** X8.  Repeating an update changes nothing but the time stamp: when an
    update whose [targetDurationMinutes], if given, is a safe integer has
    succeeded, the same payload sent again (at any later time, by the same
    caller) succeeds again and leaves exactly the store that this second call
    alone would have left on the original store. *)
Theorem updateScript_repeated :
  forall (host1 host2 : Host) (user : User) (db db1 : Db) (i : UpdateScript.input)
         (out : Success string),
    host1.(locals_user) = Some user ->
    host2.(locals_user) = Some user ->
    safe_optional i.(UpdateScript.targetDurationMinutes) = true ->
    updateMeditationScript i host1 db = (Ok out, db1) ->
    updateMeditationScript i host2 db1 = updateMeditationScript i host2 db
    /\ exists db2, updateMeditationScript i host2 db1
                   = (Ok (mkSuccess true i.(UpdateScript.id)), db2).
Proof.
  intros host1 host2 user db db1 i out Hu1 Hu2 Hsafe Hcall.
  assert (UpdateScript.schema i <> None) as Hs.
  { intros E. unfold updateMeditationScript, defineAction in Hcall.
    rewrite E in Hcall. discriminate. }
  rewrite (update_run host1 user db i Hu1 Hs) in Hcall.
  rewrite !(update_run host2 user _ i Hu2 Hs).
  rewrite !getOwnedScript_unfold in *.
  fold (update_target i user.(user_id)) in *.
  destruct (decode decodable_script (filter (update_target i user.(user_id)) db.(scripts))
              db) as [[rows|e] d] eqn:Hd; [|discriminate].
  apply decode_inv in Hd. destruct Hd as (-> & -> & Hok).
  destruct (filter (update_target i user.(user_id)) db.(scripts)) as [|a l] eqn:Hf;
    [discriminate|].
  injection Hcall as _ <-. cbn [scripts sections].
  rewrite filter_map_same.
  2:{ intros r. destruct (update_target i user.(user_id) r) eqn:Hr.
      - now rewrite set_script_target.
      - exact Hr. }
  rewrite Hf. rewrite decode_ok.
  2:{ intros r Hr. apply in_map_iff in Hr. destruct Hr as (x & <- & Hx).
      assert (update_target i user.(user_id) x = true) as Hxt.
      { assert (In x (filter (update_target i user.(user_id)) db.(scripts))) as Hx'
          by (rewrite Hf; exact Hx).
        now apply filter_In in Hx'. }
      rewrite Hxt. apply set_script_decodable; [exact Hsafe|now apply Hok]. }
  cbn [map scripts sections]. rewrite map_map.
  assert (forall r,
            (if update_target i user.(user_id)
                  (if update_target i user.(user_id) r
                   then set_script (UpdateScript.updates i host1.(new_Date)) r else r)
             then set_script (UpdateScript.updates i host2.(new_Date))
                    (if update_target i user.(user_id) r
                     then set_script (UpdateScript.updates i host1.(new_Date)) r else r)
             else (if update_target i user.(user_id) r
                   then set_script (UpdateScript.updates i host1.(new_Date)) r else r))
            = (if update_target i user.(user_id) r
               then set_script (UpdateScript.updates i host2.(new_Date)) r else r)) as E.
  { intros r. destruct (update_target i user.(user_id) r) eqn:Hr.
    - now rewrite set_script_target, Hr, set_script_twice.
    - now rewrite Hr. }
  rewrite (map_ext _ _ E).
  split; [reflexivity|]. eexists. reflexivity.
Qed.

Lemma updateScript_repeated_witness :
  exists db1,
    updateMeditationScript
      (UpdateScript.mk "s-a" (Some "X") None None None None None None None None None)
      Sample.host_alice Sample.db = (Ok (mkSuccess true "s-a"), db1)
    /\ updateMeditationScript
         (UpdateScript.mk "s-a" (Some "X") None None None None None None None None None)
         Sample.host_alice_later db1
       = updateMeditationScript
           (UpdateScript.mk "s-a" (Some "X") None None None None None None None None None)
           Sample.host_alice_later Sample.db.
Proof.
  eexists. split; [reflexivity|].
  eapply (updateScript_repeated Sample.host_alice Sample.host_alice_later Sample.alice
            Sample.db).
  - reflexivity.
  - reflexivity.
  - reflexivity.
  - reflexivity.
Defined.

(** ** Paging through a list *)

Lemma list_page_run (host : Host) (user : User) (db : Db) (pg sz : Z)
  (focusArea : option string) (isFavorite : option bool) :
  host.(locals_user) = Some user ->
  1 <= pg -> 1 <= sz <= 100 ->
  let matching :=
    filter (ListScripts.condition user.(user_id)
              (ListScripts.mkParsed pg sz focusArea isFavorite)) db.(scripts) in
  (forall s, In s matching -> decodable_script s = true) ->
  listMeditationScripts (ListScripts.mk (Some pg) (Some sz) focusArea isFavorite) host db
  = (Ok (mkSuccess true
           (ListScripts.mkPage
              (firstn (Z.to_nat sz) (skipn (Z.to_nat ((pg - 1) * sz)) matching))
              (Z.of_nat (List.length matching)))),
     db).
Proof.
  intros Hu Hp [Hs1 Hs2] matching Hread.
  assert (ListScripts.schema (ListScripts.mk (Some pg) (Some sz) focusArea isFavorite)
          = Some (ListScripts.mkParsed pg sz focusArea isFavorite)) as Hs.
  { unfold ListScripts.schema. simpl.
    destruct (Z.ltb_spec 0 pg); [|lia].
    destruct (Z.leb_spec 1 sz); [|lia].
    destruct (Z.leb_spec sz 100); [|lia]. reflexivity. }
  rewrite (list_run host user db _ _ Hu Hs).
  unfold select_scripts. rewrite decode_ok by exact Hread.
  cbn [ListScripts.p_page ListScripts.p_pageSize].
  rewrite slice_window by nia. reflexivity.
Qed.

(** X10.  Paging through a list loses and repeats nothing: for a signed-in
    caller whose selected scripts hold safe integers and a page size between
    1 and 100, the items of pages 1 to [n], one after the other, are the
    first n * pageSize rows the query selects, in store order; once
    n * pageSize reaches the number of selected rows they are all of them,
    each exactly once. *)
Theorem pages_cover_the_list :
  forall (host : Host) (user : User) (db : Db) (n : nat) (pageSize : Z)
         (focusArea : option string) (isFavorite : option bool),
    host.(locals_user) = Some user ->
    1 <= pageSize <= 100 ->
    let matching :=
      filter (ListScripts.condition user.(user_id)
                (ListScripts.mkParsed 1 pageSize focusArea isFavorite)) db.(scripts) in
    (forall s, In s matching -> decodable_script s = true) ->
    pages_upto n pageSize focusArea isFavorite host db
    = firstn (n * Z.to_nat pageSize) matching
    /\ (Z.of_nat (List.length matching) <= Z.of_nat n * pageSize ->
        pages_upto n pageSize focusArea isFavorite host db = matching).
Proof.
  intros host user db n sz f fav Hu Hsz matching Hread.
  assert (pages_upto n sz f fav host db = firstn (n * Z.to_nat sz) matching) as E.
  { induction n as [|m IH].
    - reflexivity.
    - cbn [pages_upto]. rewrite IH.
      rewrite (list_page_run host user db (Z.of_nat (Datatypes.S m)) sz f fav Hu)
        by (try lia; exact Hread).
      unfold items_of. cbn [fst data ListScripts.items].
      replace (Z.to_nat ((Z.of_nat (Datatypes.S m) - 1) * sz)) with (m * Z.to_nat sz)%nat
        by nia.
      change (filter _ db.(scripts)) with matching.
      rewrite firstn_then_window. f_equal. lia. }
  split; [exact E|].
  intros Hall. rewrite E. apply firstn_all2. nia.
Qed.

Lemma pages_cover_the_list_witness :
  pages_upto 2 1 None None Sample.host_alice Sample.db
  = [Sample.script_a; Sample.script_a2].
Proof.
  destruct (pages_cover_the_list Sample.host_alice Sample.alice Sample.db 2 1 None None
              eq_refl) as [_ H].
  - lia.
  - intros s Hs. simpl in Hs. intuition (subst; reflexivity).
  - rewrite H; [reflexivity|]. simpl. lia.
Defined.

(** ** A created script in the lists *)

Lemma condition_other_user (uid : string) (p : ListScripts.parsed) (s : S.row) :
  s.(S.userId) <> uid -> ListScripts.condition uid p s = false.
Proof.
  intros H. unfold ListScripts.condition.
  apply String.eqb_neq in H. rewrite H.
  destruct (if_truthy _), p.(ListScripts.p_isFavorite); reflexivity.
Qed.

Lemma condition_owner (uid : string) (p : ListScripts.parsed) (s : S.row) :
  ListScripts.condition uid p s = true -> s.(S.userId) = uid.
Proof.
  intros H. destruct (String.eqb_spec s.(S.userId) uid) as [E|E]; [exact E|].
  rewrite (condition_other_user uid p s E) in H. discriminate.
Qed.

(** X11.  A created script shows in its owner's list and in nobody else's:
    after a successful createMeditationScript whose [targetDurationMinutes],
    if given, is a safe integer, by a caller whose scripts hold safe
    integers, an unfiltered list call of the owner reports one script more
    than before, and every list call of any other user, whatever its
    payload, answers exactly as before. *)
Theorem created_script_is_listed :
  forall (host host' : Host) (user : User) (db : Db) (i : CreateScript.input)
         (page pageSize : Z),
    host.(locals_user) = Some user ->
    host'.(locals_user) = Some user ->
    CreateScript.schema i <> None ->
    safe_optional i.(CreateScript.targetDurationMinutes) = true ->
    (forall s, In s db.(scripts) -> s.(S.userId) = user.(user_id) ->
               decodable_script s = true) ->
    ~ In host.(randomUUID) (map S.id db.(scripts)) ->
    1 <= page -> 1 <= pageSize <= 100 ->
    exists db',
      createMeditationScript i host db = (Ok (mkSuccess true host.(randomUUID)), db')
      /\ total_of (listMeditationScripts
                     (ListScripts.mk (Some page) (Some pageSize) None None) host' db')
         = total_of (listMeditationScripts
                       (ListScripts.mk (Some page) (Some pageSize) None None) host' db)
           + 1
      /\ (forall (other_host : Host) (other : User) (il : ListScripts.input),
            other_host.(locals_user) = Some other ->
            other.(user_id) <> user.(user_id) ->
            fst (listMeditationScripts il other_host db')
            = fst (listMeditationScripts il other_host db)).
Proof.
  intros host host' user db i pg sz Hu Hu' Hs Hsafe Hread Hfresh Hpg Hsz.
  eexists. split; [|split].
  - rewrite (create_run host user db i Hu Hs).
    rewrite insert_script_fresh by exact Hfresh. reflexivity.
  - rewrite !(list_page_run host' user _ pg sz None None Hu' Hpg Hsz).
    + unfold total_of. cbn [fst data ListScripts.total scripts].
      rewrite filter_app, length_app.
      unfold ListScripts.condition at 2. cbn. rewrite String.eqb_refl. cbn. lia.
    + intros s Hin. apply filter_In in Hin. destruct Hin as [Hin Hc].
      apply Hread; [exact Hin|]. now apply condition_owner in Hc.
    + intros s Hin. apply filter_In in Hin. destruct Hin as [Hin Hc].
      cbn [scripts] in Hin. apply in_app_or in Hin. destruct Hin as [Hin|[<-|[]]].
      * apply Hread; [exact Hin|]. now apply condition_owner in Hc.
      * exact Hsafe.
  - intros other_host other il Ho Hne.
    destruct (ListScripts.schema il) as [p|] eqn:Hp.
    2:{ unfold listMeditationScripts, defineAction. now rewrite Hp. }
    rewrite !(list_run other_host other _ il p Ho Hp).
    unfold select_scripts. cbn [scripts].
    rewrite filter_app. cbn [filter].
    rewrite condition_other_user by (cbn [S.userId]; congruence).
    rewrite app_nil_r. unfold decode, ret, throw.
    destruct (forallb _ _); reflexivity.
Qed.

Lemma created_script_is_listed_witness :
  exists db',
    createMeditationScript
      (CreateScript.mk "Noon Pause" None None None None None None None None None)
      Sample.host_alice Sample.db = (Ok (mkSuccess true "uuid-1"), db')
    /\ total_of (listMeditationScripts (ListScripts.mk (Some 1) (Some 20) None None)
                   Sample.host_alice_later db') = 3
    /\ fst (listMeditationScripts (ListScripts.mk None None None None)
              (mkHost (Some Sample.bob) 3000 "uuid-3") db')
       = fst (listMeditationScripts (ListScripts.mk None None None None)
                (mkHost (Some Sample.bob) 3000 "uuid-3") Sample.db).
Proof.
  destruct (created_script_is_listed Sample.host_alice Sample.host_alice_later
              Sample.alice Sample.db
              (CreateScript.mk "Noon Pause" None None None None None None None None None)
              1 20) as (db' & Hc & Ht & Ho).
  - reflexivity.
  - reflexivity.
  - discriminate.
  - reflexivity.
  - intros s Hs _. simpl in Hs. intuition (subst; reflexivity).
  - simpl. intuition discriminate.
  - lia.
  - lia.
  - exists db'. split; [exact Hc|]. split.
    + rewrite Ht. reflexivity.
    + apply (Ho (mkHost (Some Sample.bob) 3000 "uuid-3") Sample.bob); [reflexivity|].
      discriminate.
Defined.

(** ** An updated section reads back *)

Lemma set_section_decodable (i : UpsertSection.input) (r : T.row) :
  safe_integer i.(UpsertSection.orderIndex) = true ->
  safe_optional i.(UpsertSection.suggestedDurationMinutes) = true ->
  decodable_section r = true ->
  decodable_section (set_section (UpsertSection.updates i) r) = true.
Proof.
  intros H1 H2 Hr. unfold decodable_section in *.
  destruct (set_section_updates i r) as (_ & _ & _ & Eo & _ & _ & _ & Es).
  rewrite Eo, Es, H1. cbn [andb].
  apply andb_prop in Hr. destruct Hr as [_ Hr].
  destruct i.(UpsertSection.suggestedDurationMinutes); assumption.
Qed.

(** X12.  An updated section reads back: for a caller who owns the named
    script, with unique ids, rows of the script and its sections that hold
    safe integers, and a payload the schema accepts whose [orderIndex] and
    [suggestedDurationMinutes] are safe integers, an upsert call with the id
    of a section of that script succeeds, and
    getMeditationScriptWithSections then returns as many sections as the
    script had, among them the section with the payload's [orderIndex] and
    [body] (and the optional fields as given), and all the others are the
    script's other sections, unchanged. *)
Theorem upsertSection_update_then_get :
  forall (host host' : Host) (user : User) (db : Db) (i : UpsertSection.input)
         (k : string) (s : S.row) (t : T.row),
    host.(locals_user) = Some user ->
    host'.(locals_user) = Some user ->
    UpsertSection.schema i <> None ->
    safe_integer i.(UpsertSection.orderIndex) = true ->
    safe_optional i.(UpsertSection.suggestedDurationMinutes) = true ->
    primary_key S.id db.(scripts) ->
    primary_key T.id db.(sections) ->
    i.(UpsertSection.id) = Some k -> k <> "" ->
    In s db.(scripts) ->
    owned_by i.(UpsertSection.scriptId) user.(user_id) s ->
    decodable_script s = true ->
    readable_sections_of i.(UpsertSection.scriptId) db ->
    In t db.(sections) -> t.(T.id) = k -> t.(T.scriptId) = s.(S.id) ->
    let fetched :=
      filter (fun x => (x.(T.scriptId) =? i.(UpsertSection.scriptId))%string)
        db.(sections) in
    exists db' out new,
      upsertMeditationScriptSection i host db = (Ok (mkSuccess true k), db')
      /\ getMeditationScriptWithSections (GetScript.mk i.(UpsertSection.scriptId))
           host' db'
         = (Ok (mkSuccess true (GetScript.mkOut s out)), db')
      /\ In new out
      /\ updated_section i t new
      /\ List.length out = List.length fetched
      /\ (forall x, In x out -> x = new \/ (In x fetched /\ x.(T.id) <> k)).
Proof.
  intros host host' user db i k s t Hu Hu' Hs Ho Hsd Hks Hkt Hid Hne Hin Hown Hd Hread
    Ht Et Epar fetched.
  set (g := fun r => if (r.(T.id) =? k)%string
                     then set_section (UpsertSection.updates i) r else r).
  assert (forall r, (g r).(T.scriptId) = r.(T.scriptId)) as Hg.
  { intros r. unfold g. destruct (_ =? _)%string; [apply set_section_keys|reflexivity]. }
  assert (g t = set_section (UpsertSection.updates i) t) as Egt.
  { unfold g. now rewrite Et, String.eqb_refl. }
  pose proof Hown as [Eid Eown].
  assert (decodable_section t = true) as Hdt.
  { apply Hread; [exact Ht|congruence]. }
  pose proof (getOwnedScript_owned _ _ db s Hks Hin Eid Eown Hd) as Hgs.
  exists (mkDb db.(scripts) (map g db.(sections))),
         (sort (fun a b => a.(T.orderIndex) - b.(T.orderIndex)) (map g fetched)),
         (g t).
  split; [|split; [|split; [|split; [|split]]]].
  - rewrite (upsert_run host user db i Hu Hs), Hgs, Hid, (if_truthy_nonempty k Hne).
    unfold select_sections. rewrite (filter_key_unique T.id _ t k Hkt Ht Et).
    unfold decode. cbn [forallb]. rewrite Hdt. cbn [andb ret].
    now rewrite Epar, String.eqb_refl.
  - rewrite (get_run host' user _ _ Hu').
    rewrite (getOwnedScript_owned _ _ (mkDb db.(scripts) (map g db.(sections))) s
               Hks Hin Eid Eown Hd).
    rewrite Eid. rewrite select_sections_readable.
    + cbn [sections].
      rewrite filter_map_same by (intros x; now rewrite Hg). reflexivity.
    + cbn [sections]. intros x Hx Hc. apply String.eqb_eq in Hc.
      apply in_map_iff in Hx. destruct Hx as (y & <- & Hy).
      rewrite Hg in Hc. unfold g.
      destruct (y.(T.id) =? k)%string.
      * apply set_section_decodable; auto.
      * now apply Hread.
  - apply (Permutation_in _ (Permutation_sym (sort_perm T.orderIndex (map g fetched)))).
    apply in_map. apply filter_In. split; [exact Ht|].
    apply String.eqb_eq. congruence.
  - rewrite Egt. apply set_section_updates.
  - etransitivity; [apply Permutation_length, (sort_perm T.orderIndex)|].
    apply length_map.
  - intros x Hx.
    apply (Permutation_in _ (sort_perm T.orderIndex (map g fetched))) in Hx.
    apply in_map_iff in Hx. destruct Hx as (y & <- & Hy).
    destruct (String.eqb_spec y.(T.id) k) as [E|E].
    + left. f_equal. apply filter_In in Hy.
      eapply primary_key_unique; eauto; [tauto|congruence].
    + right. unfold g. apply String.eqb_neq in E. rewrite E.
      apply String.eqb_neq in E. auto.
Qed.

Lemma upsertSection_update_then_get_witness :
  exists db' out new,
    upsertMeditationScriptSection
      (UpsertSection.mk (Some "t-5") "s-a2" 2 None None "Breathe out." None)
      Sample.host_alice Sample.db = (Ok (mkSuccess true "t-5"), db')
    /\ getMeditationScriptWithSections (GetScript.mk "s-a2") Sample.host_alice_later db'
       = (Ok (mkSuccess true (GetScript.mkOut Sample.script_a2 out)), db')
    /\ In new out
    /\ updated_section
         (UpsertSection.mk (Some "t-5") "s-a2" 2 None None "Breathe out." None)
         Sample.section_a21 new
    /\ List.length out = 1%nat.
Proof.
  destruct (upsertSection_update_then_get Sample.host_alice Sample.host_alice_later
              Sample.alice Sample.db
              (UpsertSection.mk (Some "t-5") "s-a2" 2 None None "Breathe out." None)
              "t-5" Sample.script_a2 Sample.section_a21)
    as (db' & out & new & H1 & H2 & H3 & H4 & H5 & _).
  - reflexivity.
  - reflexivity.
  - discriminate.
  - reflexivity.
  - reflexivity.
  - unfold primary_key. simpl. repeat constructor; simpl; intuition discriminate.
  - unfold primary_key. simpl. repeat constructor; simpl; intuition discriminate.
  - reflexivity.
  - discriminate.
  - simpl. tauto.
  - split; reflexivity.
  - reflexivity.
  - intros x H _. simpl in H. intuition (subst; reflexivity).
  - simpl. tauto.
  - reflexivity.
  - reflexivity.
  - exists db', out, new.
    split; [exact H1|split; [exact H2|split; [exact H3|split; [exact H4|exact H5]]]].
Defined.

(** ** A deleted section no longer reads back *)

(** X13.  Deleting a section removes just that section from what is read
    back: for a caller who owns the script, with unique ids and rows of the
    script and its sections that hold safe integers,
    getMeditationScriptWithSections after a successful delete returns the
    list it returned before without the rows of the deleted id, the
    remaining sections in the same order. *)
Theorem deleteSection_then_get :
  forall (host host' : Host) (user : User) (db : Db) (sid k : string)
         (s : S.row) (t : T.row),
    host.(locals_user) = Some user ->
    host'.(locals_user) = Some user ->
    primary_key S.id db.(scripts) ->
    primary_key T.id db.(sections) ->
    In s db.(scripts) -> owned_by sid user.(user_id) s ->
    decodable_script s = true ->
    readable_sections_of sid db ->
    In t db.(sections) -> t.(T.id) = k -> t.(T.scriptId) = sid ->
    exists db' out,
      getMeditationScriptWithSections (GetScript.mk sid) host' db
      = (Ok (mkSuccess true (GetScript.mkOut s out)), db)
      /\ deleteMeditationScriptSection (DeleteSection.mk k) host db
         = (Ok (mkSuccess true k), db')
      /\ getMeditationScriptWithSections (GetScript.mk sid) host' db'
         = (Ok (mkSuccess true
                  (GetScript.mkOut s
                     (filter (fun x => negb (x.(T.id) =? k)%string) out))),
            db').
Proof.
  intros host host' user db sid k s t Hu Hu' Hks Hkt Hin Hown Hd Hread Ht Et Epar.
  pose proof Hown as [Eid Eown].
  pose proof (getOwnedScript_owned _ _ db s Hks Hin Eid Eown Hd) as Hgs.
  eexists. eexists. split; [|split].
  - rewrite (get_run host' user db sid Hu'), Hgs, Eid.
    rewrite select_sections_readable; [reflexivity|].
    intros x Hx Hc. apply String.eqb_eq in Hc. now apply Hread.
  - rewrite (delete_run host user db _ Hu). cbn [DeleteSection.id].
    unfold select_sections. rewrite (filter_key_unique T.id _ t k Hkt Ht Et).
    unfold decode. cbn [forallb]. rewrite (Hread t Ht Epar). cbn [andb ret].
    rewrite Epar, Hgs. reflexivity.
  - rewrite (get_run host' user _ sid Hu').
    match goal with
    | |- context [getOwnedScript ?a ?b ?d] =>
        rewrite (getOwnedScript_other_store a b db d (Ok s) eq_refl Hgs)
    end.
    rewrite Eid. rewrite select_sections_readable.
    + cbn [sections]. rewrite filter_swap.
      rewrite <- (filter_sort T.orderIndex). reflexivity.
    + cbn [sections]. intros x Hx Hc. apply String.eqb_eq in Hc.
      apply filter_In in Hx. now apply Hread.
Qed.

Lemma deleteSection_then_get_witness :
  exists db',
    deleteMeditationScriptSection (DeleteSection.mk "t-3") Sample.host_alice Sample.db
    = (Ok (mkSuccess true "t-3"), db')
    /\ getMeditationScriptWithSections (GetScript.mk "s-a") Sample.host_alice_later db'
       = (Ok (mkSuccess true
                (GetScript.mkOut Sample.script_a
                   [Sample.section_a2; Sample.section_a4; Sample.section_a1])),
          db').
Proof.
  destruct (deleteSection_then_get Sample.host_alice Sample.host_alice_later
              Sample.alice Sample.db "s-a" "t-3" Sample.script_a Sample.section_a3)
    as (db' & out & Hget & Hdel & Hafter).
  - reflexivity.
  - reflexivity.
  - unfold primary_key. simpl. repeat constructor; simpl; intuition discriminate.
  - unfold primary_key. simpl. repeat constructor; simpl; intuition discriminate.
  - simpl. tauto.
  - split; reflexivity.
  - reflexivity.
  - intros x H _. simpl in H. intuition (subst; reflexivity).
  - simpl. tauto.
  - reflexivity.
  - reflexivity.
  - exists db'. split; [exact Hdel|].
    vm_compute in Hget. injection Hget as <-. exact Hafter.
Defined.
